(** * cypress-ntlm-auth: connection-context manager, MITM proxy facade and
    ports file, embedded from the TypeScript/JavaScript sources.

    - [src/proxy/connection.context.manager.ts]: class
      [ConnectionContextManager] (tables of connection contexts and of SSL
      tunnels) and class [HttpMitmProxyFacade];
    - the ports-file module ([parsePortsFile], [validatePortsFile]).

    Stateful methods are functions in a small state-and-trace monad: the
    state is the manager object, the trace lists the calls made on
    collaborators (sockets, contexts, agents, the debug logger) in program
    order. *)

From Stdlib Require Import String Ascii List Bool Arith NArith Lia QArith DecimalString DecimalN.
Import ListNotations.
Open Scope string_scope.
Open Scope nat_scope.

(* ================================================================== *)
(** ** JavaScript objects used as string-keyed tables *)
(* ================================================================== *)

(** [ConnectionContextHash] and [SslTunnelHash] are plain objects indexed by
    a client address.  A [for ... in] loop visits own string keys in
    insertion order, and that order is visible in the order of the calls the
    loops make, so a table is an association list kept in insertion order.
    Every key is a client address [ip:port]; it contains a colon, hence is
    neither an array index nor a name inherited from [Object.prototype], and
    for such a key [k in o] coincides with own-property membership.  For an
    arbitrary string [k in o] also holds of the inherited names ([isIn]). *)
Module JsObject.

Definition t (V : Type) : Type := list (string * V).

(** [{}] *)
Definition empty {V : Type} : t V := [].

(** [o[k]] ([None] is [undefined]) *)
Fixpoint get {V : Type} (k : string) (o : t V) : option V :=
  match o with
  | [] => None
  | (k', v) :: rest => if String.eqb k' k then Some v else get k rest
  end.

(** [k in o] for a key that is a client address (no inherited name) *)
Definition has {V : Type} (k : string) (o : t V) : bool :=
  match get k o with Some _ => true | None => false end.

(** [o[k] = v]: an existing property keeps its place, a new one is added
    last. *)
Fixpoint set {V : Type} (k : string) (v : V) (o : t V) : t V :=
  match o with
  | [] => [(k, v)]
  | (k', v') :: rest =>
      if String.eqb k' k then (k', v) :: rest else (k', v') :: set k v rest
  end.

(** [delete o[k]] *)
Fixpoint delete {V : Type} (k : string) (o : t V) : t V :=
  match o with
  | [] => []
  | (k', v') :: rest =>
      if String.eqb k' k then delete k rest else (k', v') :: delete k rest
  end.

(** The names a plain object inherits from [Object.prototype]. *)
Definition objectPrototypeNames : list string :=
  ["constructor"; "__defineGetter__"; "__defineSetter__"; "hasOwnProperty";
   "__lookupGetter__"; "__lookupSetter__"; "isPrototypeOf";
   "propertyIsEnumerable"; "toString"; "valueOf"; "__proto__";
   "toLocaleString"].

Definition inherited (k : string) : bool :=
  existsb (String.eqb k) objectPrototypeNames.

(** [k in o] for any string [k]: an own key, or an inherited name. *)
Definition isIn {V : Type} (k : string) (o : t V) : bool :=
  has k o || inherited k.

(** Own keys, in [for ... in] order. *)
Definition keys {V : Type} (o : t V) : list string := map fst o.

Definition values {V : Type} (o : t V) : list V := map snd o.

End JsObject.

(* ================================================================== *)
(** ** Data model *)
(* ================================================================== *)

(** A [net.Socket]: [socketId] stands for the identity of the object;
    [remoteAddress] and [remotePort] are [undefined] on a socket that is not
    connected. *)
Record Socket : Type := mkSocket {
  socketId : nat;
  remoteAddress : option string;
  remotePort : option N
}.

(** [CompleteUrl] (declared in [models/complete.url.model]); the manager
    reads [href] and [isLocalhost]. *)
Record CompleteUrl : Type := mkCompleteUrl {
  protocol : string;
  hostname : string;
  port : N;
  href : string;
  isLocalhost : bool
}.

(** [https.AgentOptions]: the three options [getAgent] writes, and the three
    an upstream proxy configuration adds. *)
Record AgentOptions : Type := mkAgentOptions {
  keepAlive : bool;
  maxSockets : nat;
  rejectUnauthorized : bool;
  host : option string;
  proxyPort : option N;
  secureProxy : option bool
}.

Inductive AgentKind : Type :=
| HttpAgent
| HttpsAgent
| HttpProxyAgent
| HttpsProxyAgent.

(** An agent remembers the class it was built from and the options passed
    to its constructor ([None]: built without options). *)
Record Agent : Type := mkAgent {
  agentKind : AgentKind;
  agentOptions : option AgentOptions
}.

(** [this.removeAgentOnClose.bind(this, clientAddress)] *)
Inductive Listener : Type :=
| RemoveAgentOnClose (clientAddress : string).

(** The fields of [IConnectionContext] the manager reads or writes. *)
Record ConnectionContext : Type := mkConnectionContext {
  clientAddress : string;
  agent : option Agent;
  clientSocket : option Socket;
  socketCloseListener : option Listener;
  configApiConnection : bool
}.

(** [SslTunnel]: the guard in [removeAndCloseAllTunnels] tests [target]. *)
Record SslTunnel : Type := mkSslTunnel {
  client : Socket;
  target : option Socket
}.

(** [IUpstreamProxyManager]: [setUpstreamProxyConfig] may write into the
    options object it is handed and answers whether an upstream proxy is to
    be used; the model returns the answer with the options as left. *)
Class IUpstreamProxyManager : Type := {
  setUpstreamProxyConfig :
    CompleteUrl -> bool -> AgentOptions -> bool * AgentOptions
}.

(** [process.env], as far as the manager reads it. *)
Record ProcessEnv : Type := mkProcessEnv {
  NODE_TLS_REJECT_UNAUTHORIZED : option string
}.

Definition ConnectionContextHash : Type := JsObject.t ConnectionContext.
Definition SslTunnelHash : Type := JsObject.t SslTunnel.

(** The manager object.  [newConnectionContext] is the context that the
    injected constructor [new this.ConnectionContext()] returns. *)
Record ConnectionContextManager : Type := mkManager {
  _agentCount : nat;
  _connectionContexts : ConnectionContextHash;
  _upstreamProxyManager : IUpstreamProxyManager;
  newConnectionContext : ConnectionContext;
  _tunnels : SslTunnelHash
}.

(** How a call of a method ends: it returns, or a [TypeError] leaves it
    because the named member of a value is not a function. *)
Inductive Ended (A : Type) : Type :=
| Returned (a : A)
| NotAFunction (member : string).
Arguments Returned {A} a.
Arguments NotAFunction {A} member.

(** Calls on collaborators, in program order. *)
Inductive Event : Type :=
| NewAgent (a : Agent)
| NewContext
| SocketOnce (s : Socket) (name : string) (l : Listener)
| SocketRemoveListener (s : Socket) (name : string) (l : option Listener)
| ContextDestroy (c : ConnectionContext) (event : string)
| SocketEnd (s : Socket)
| DebugLog (args : list string).

(* ================================================================== *)
(** ** State-and-trace monad *)
(* ================================================================== *)

Definition M (A : Type) : Type :=
  ConnectionContextManager -> A * ConnectionContextManager * list Event.

Definition ret {A : Type} (a : A) : M A := fun this => (a, this, []).

Definition bind {A B : Type} (c : M A) (k : A -> M B) : M B :=
  fun this =>
    let '(a, this1, tr1) := c this in
    let '(b, this2, tr2) := k a this1 in
    (b, this2, (tr1 ++ tr2)%list).

Definition emit (e : Event) : M unit := fun this => (tt, this, [e]).

Definition read {A : Type} (f : ConnectionContextManager -> A) : M A :=
  fun this => (f this, this, []).

Definition write (f : ConnectionContextManager -> ConnectionContextManager)
  : M unit :=
  fun this => (tt, f this, []).

Declare Scope js_scope.
Delimit Scope js_scope with js.
Notation "x <- c ;; k" := (bind c (fun x => k))
  (at level 61, c at next level, right associativity) : js_scope.
Notation "c ;; k" := (bind c (fun _ => k))
  (at level 61, right associativity) : js_scope.
Open Scope js_scope.

Definition result {A : Type} (r : A * ConnectionContextManager * list Event)
  : A := fst (fst r).
Definition state {A : Type} (r : A * ConnectionContextManager * list Event)
  : ConnectionContextManager := snd (fst r).
Definition trace {A : Type} (r : A * ConnectionContextManager * list Event)
  : list Event := snd r.

Definition set_agentCount (n : nat) (this : ConnectionContextManager) :=
  mkManager n (_connectionContexts this) (_upstreamProxyManager this)
    (newConnectionContext this) (_tunnels this).

Definition set_connectionContexts (h : ConnectionContextHash)
  (this : ConnectionContextManager) :=
  mkManager (_agentCount this) h (_upstreamProxyManager this)
    (newConnectionContext this) (_tunnels this).

Definition set_tunnels (h : SslTunnelHash) (this : ConnectionContextManager) :=
  mkManager (_agentCount this) (_connectionContexts this)
    (_upstreamProxyManager this) (newConnectionContext this) h.

(* ================================================================== *)
(** ** class ConnectionContextManager *)
(* ================================================================== *)

(** String conversion in [a + ":" + b]. *)
Definition js_string_of_string (s : option string) : string :=
  match s with Some s => s | None => "undefined" end.

Definition js_string_of_number (n : option N) : string :=
  match n with
  | Some n => NilEmpty.string_of_uint (N.to_uint n)
  | None => "undefined"
  end.

Definition getClientAddress (clientSocket : Socket) : string :=
  js_string_of_string (remoteAddress clientSocket) ++ ":" ++
  js_string_of_number (remotePort clientSocket).

(** A string is falsy only when empty. *)
Definition truthy_env (v : option string) : bool :=
  match v with
  | Some s => negb (String.eqb s "")
  | None => false
  end.

Definition nodeTlsRejectUnauthorized (env : ProcessEnv) : bool :=
  if truthy_env (NODE_TLS_REJECT_UNAUTHORIZED env) then
    match NODE_TLS_REJECT_UNAUTHORIZED env with
    | Some s => negb (String.eqb s "0")
    | None => true
    end
  else true.

Definition getAgent (env : ProcessEnv) (isSSL : bool) (targetHost : CompleteUrl)
  : M Agent :=
  let agentOptions :=
    {| keepAlive := true;
       maxSockets := 1;
       rejectUnauthorized :=
         nodeTlsRejectUnauthorized env && negb (isLocalhost targetHost);
       host := None; proxyPort := None; secureProxy := None |} in
  upm <- read _upstreamProxyManager ;;
  let '(useUpstreamProxy, agentOptions) :=
    @setUpstreamProxyConfig upm targetHost isSSL agentOptions in
  let agent :=
    if useUpstreamProxy then
      (if isSSL then mkAgent HttpsProxyAgent (Some agentOptions)
       else mkAgent HttpProxyAgent (Some agentOptions))
    else
      (if isSSL then mkAgent HttpsAgent (Some agentOptions)
       else mkAgent HttpAgent (Some agentOptions)) in
  emit (NewAgent agent) ;;
  ret agent.

(** The new context is stored in the table before its listener field is
    assigned; table and variable hold the same object, so the stored context
    is the finished one. *)
Definition createConnectionContext (env : ProcessEnv) (clientSocket : Socket)
  (isSSL : bool) (targetHost : CompleteUrl) : M ConnectionContext :=
  let clientAddress := getClientAddress clientSocket in
  contexts <- read _connectionContexts ;;
  match JsObject.get clientAddress contexts with
  | Some stored => ret stored
  | None =>
      agent <- getAgent env isSSL targetHost ;;
      write (fun this => set_agentCount (S (_agentCount this)) this) ;;
      fresh <- read newConnectionContext ;;
      emit NewContext ;;
      let listener := RemoveAgentOnClose clientAddress in
      let context :=
        {| clientAddress := clientAddress;
           agent := Some agent;
           clientSocket := Some clientSocket;
           socketCloseListener := Some listener;
           configApiConnection := configApiConnection fresh |} in
      write (fun this =>
        set_connectionContexts
          (JsObject.set clientAddress context (_connectionContexts this))
          this) ;;
      emit (SocketOnce clientSocket "close" listener) ;;
      emit (DebugLog ["Created agent for client " ++ clientAddress ++
                      " to target " ++ href targetHost]) ;;
      ret context
  end.

Definition getConnectionContextFromClientSocket (clientSocket : Socket)
  : M (option ConnectionContext) :=
  let clientAddress := getClientAddress clientSocket in
  contexts <- read _connectionContexts ;;
  match JsObject.get clientAddress contexts with
  | Some stored => ret (Some stored)
  | None => ret None
  end.

Definition getUntrackedAgent (targetHost : CompleteUrl) : M Agent :=
  let agent := mkAgent HttpAgent None in
  emit (NewAgent agent) ;;
  write (fun this => set_agentCount (S (_agentCount this)) this) ;;
  emit (DebugLog ["Created untracked agent for target " ++ href targetHost]) ;;
  ret agent.

(** [socket?.removeListener("close", listener)] *)
Definition removeCloseListener (socket : option Socket)
  (listener : option Listener) : M unit :=
  match socket with
  | Some s => emit (SocketRemoveListener s "close" listener)
  | None => ret tt
  end.

(** The body of the [for ... in] loop of [removeAllConnectionContexts], over
    the own properties still to visit; [preservedContexts] is the local
    table being filled. *)
Fixpoint removeAllConnectionContexts_loop (event : string)
  (properties : list (string * ConnectionContext))
  (preservedContexts : ConnectionContextHash) : M ConnectionContextHash :=
  match properties with
  | [] => ret preservedContexts
  | (property, context) :: rest =>
      if configApiConnection context then
        removeAllConnectionContexts_loop event rest
          (JsObject.set (clientAddress context) context preservedContexts)
      else
        removeCloseListener (clientSocket context)
          (socketCloseListener context) ;;
        emit (DebugLog ["Destroying context for"; clientAddress context]) ;;
        emit (ContextDestroy context event) ;;
        removeAllConnectionContexts_loop event rest preservedContexts
  end.

Definition removeAllConnectionContexts (event : string) : M unit :=
  contexts <- read _connectionContexts ;;
  preservedContexts <-
    removeAllConnectionContexts_loop event contexts JsObject.empty ;;
  write (set_connectionContexts preservedContexts) ;;
  emit (DebugLog ["Removed all agents due to " ++ event]).

(** [clientAddress] is any string.  When it is no own key but a name
    inherited from [Object.prototype], the test [in] still succeeds and
    [this._connectionContexts[clientAddress]] is a member of
    [Object.prototype]: it has no [clientSocket], so the optional call is
    skipped, and no [destroy], so the call of [destroy] throws before
    anything was done. *)
Definition removeAgent (event : string) (clientAddress : string)
  : M (Ended unit) :=
  contexts <- read _connectionContexts ;;
  if JsObject.isIn clientAddress contexts then
    match JsObject.get clientAddress contexts with
    | Some context =>
        removeCloseListener (clientSocket context)
          (socketCloseListener context) ;;
        emit (ContextDestroy context event) ;;
        write (fun this =>
          set_connectionContexts
            (JsObject.delete clientAddress (_connectionContexts this)) this) ;;
        emit (DebugLog ["Removed agent for " ++ clientAddress ++
                        " due to socket." ++ event]) ;;
        ret (Returned tt)
    | None => ret (NotAFunction "destroy")
    end
  else ret (Returned tt).

Definition removeAgentOnClose (clientAddress : string) : M (Ended unit) :=
  removeAgent "close" clientAddress.

Definition addTunnel (client target : Socket) : M unit :=
  write (fun this =>
    set_tunnels
      (JsObject.set (getClientAddress client)
         {| client := client; target := Some target |} (_tunnels this))
      this).

Definition removeTunnel (client : Socket) : M unit :=
  let clientAddress := getClientAddress client in
  tunnels <- read _tunnels ;;
  if JsObject.has clientAddress tunnels then
    write (fun this =>
      set_tunnels (JsObject.delete clientAddress (_tunnels this)) this)
  else ret tt.

Fixpoint removeAndCloseAllTunnels_loop
  (properties : list (string * SslTunnel)) : M unit :=
  match properties with
  | [] => ret tt
  | (property, tunnel) :: rest =>
      match target tunnel with
      | Some t => emit (SocketEnd t)
      | None => ret tt
      end ;;
      removeAndCloseAllTunnels_loop rest
  end.

Definition removeAndCloseAllTunnels (event : string) : M unit :=
  tunnels <- read _tunnels ;;
  removeAndCloseAllTunnels_loop tunnels ;;
  write (set_tunnels JsObject.empty) ;;
  emit (DebugLog ["Removed and closed all tunnels due to " ++ event]).

(** The manager as its constructor leaves it. *)
Definition newManager (upstreamProxyManager : IUpstreamProxyManager)
  (connectionContext : ConnectionContext) : ConnectionContextManager :=
  {| _agentCount := 0;
     _connectionContexts := JsObject.empty;
     _upstreamProxyManager := upstreamProxyManager;
     newConnectionContext := connectionContext;
     _tunnels := JsObject.empty |}.

(** *** Invariants of the two tables *)

Fixpoint distinct (keys : list string) : bool :=
  match keys with
  | [] => true
  | k :: rest => negb (existsb (String.eqb k) rest) && distinct rest
  end.

(** Every context is filed under its own [clientAddress], once. *)
Definition contexts_wf (h : ConnectionContextHash) : bool :=
  distinct (JsObject.keys h) &&
  forallb (fun kc => String.eqb (clientAddress (snd kc)) (fst kc)) h.

(** Every tunnel has its target socket, as [addTunnel] stores it. *)
Definition tunnels_wf (h : SslTunnelHash) : bool :=
  forallb (fun kt =>
    match target (snd kt) with Some _ => true | None => false end) h.

(** An upstream proxy manager that only adds its proxy settings: the three
    options written by [getAgent] come back as they went in. *)
Definition keeps_agent_options (upm : IUpstreamProxyManager) : Prop :=
  forall targetHost isSSL o,
    let o' := snd (@setUpstreamProxyConfig upm targetHost isSSL o) in
    keepAlive o' = keepAlive o /\
    maxSockets o' = maxSockets o /\
    rejectUnauthorized o' = rejectUnauthorized o.

(** The options object [getAgent] hands to the upstream proxy manager. *)
Definition initialAgentOptions (env : ProcessEnv) (targetHost : CompleteUrl)
  : AgentOptions :=
  {| keepAlive := true;
     maxSockets := 1;
     rejectUnauthorized :=
       nodeTlsRejectUnauthorized env && negb (isLocalhost targetHost);
     host := None; proxyPort := None; secureProxy := None |}.

(** The context [createConnectionContext] files for a socket whose address
    is not yet in the table. *)
Definition createdContext (this : ConnectionContextManager) (env : ProcessEnv)
  (clientSocket : Socket) (isSSL : bool) (targetHost : CompleteUrl)
  : ConnectionContext :=
  {| clientAddress := getClientAddress clientSocket;
     agent := Some (result (getAgent env isSSL targetHost this));
     clientSocket := Some clientSocket;
     socketCloseListener :=
       Some (RemoveAgentOnClose (getClientAddress clientSocket));
     configApiConnection := configApiConnection (newConnectionContext this) |}.

(** The calls one turn of the loop of [removeAllConnectionContexts] makes
    for a context that is not preserved. *)
Definition destroyCalls (event : string) (context : ConnectionContext)
  : list Event :=
  (match clientSocket context with
   | Some s => [SocketRemoveListener s "close" (socketCloseListener context)]
   | None => []
   end ++
   [DebugLog ["Destroying context for"; clientAddress context];
    ContextDestroy context event])%list.

Definition isConfigApi (kc : string * ConnectionContext) : bool :=
  configApiConnection (snd kc).

(** In a trace, every [destroy] of a context that has a client socket comes
    after the removal of the context's close listener from that socket. *)
Definition deregistered_before_destroy (tr : list Event) : Prop :=
  forall before context event after,
    tr = (before ++ ContextDestroy context event :: after)%list ->
    forall socket, clientSocket context = Some socket ->
      In (SocketRemoveListener socket "close" (socketCloseListener context))
         before.

(** The sockets on which [end()] is called, in order. *)
Fixpoint socketsEnded (tr : list Event) : list Socket :=
  match tr with
  | [] => []
  | SocketEnd s :: rest => s :: socketsEnded rest
  | _ :: rest => socketsEnded rest
  end.

(** The agents constructed, in order. *)
Fixpoint agentsCreated (tr : list Event) : list Agent :=
  match tr with
  | [] => []
  | NewAgent a :: rest => a :: agentsCreated rest
  | _ :: rest => agentsCreated rest
  end.

(** The contexts on which [destroy] is called, in order. *)
Fixpoint contextsDestroyed (tr : list Event) : list ConnectionContext :=
  match tr with
  | [] => []
  | ContextDestroy c _ :: rest => c :: contextsDestroyed rest
  | _ :: rest => contextsDestroyed rest
  end.

(** The number of contexts constructed in a trace. *)
Fixpoint contextsCreated (tr : list Event) : nat :=
  match tr with
  | [] => 0
  | NewContext :: rest => S (contextsCreated rest)
  | _ :: rest => contextsCreated rest
  end.

(** A string without a colon, such as the decimal form of a port. *)
Fixpoint no_colon (s : string) : bool :=
  match s with
  | EmptyString => true
  | String c rest => negb (Ascii.eqb c ":") && no_colon rest
  end.

(** In a trace, the call just before every [destroy] of a context that has
    a client socket, or just before the debug line that precedes it, is the
    removal of the context's close listener from that socket. *)
Definition removal_just_before_destroy (tr : list Event) : Prop :=
  forall before context event after,
    tr = (before ++ ContextDestroy context event :: after)%list ->
    forall socket, clientSocket context = Some socket ->
      let removal :=
        SocketRemoveListener socket "close" (socketCloseListener context) in
      exists earlier, before = (earlier ++ [removal])%list \/
                      exists line, before = (earlier ++ [removal; DebugLog line])%list.

(** *** The manager in use *)

(** Modelled from the spec: the config API marks the context that serves
    its own connection (section 4.7); the code that does so is not among the
    sources.  It assigns the flag on the context object it got from
    [getConnectionContextFromClientSocket], which is the object the table
    holds. *)
Definition setConfigApiConnection (socket : Socket) (flag : bool)
  : M unit :=
  let address := getClientAddress socket in
  contexts <- read _connectionContexts ;;
  match JsObject.get address contexts with
  | Some context =>
      let marked :=
        mkConnectionContext (clientAddress context) (agent context)
          (clientSocket context) (socketCloseListener context) flag in
      write (set_connectionContexts (JsObject.set address marked contexts))
  | None => ret tt
  end.

(** What the rest of the proxy does with its manager. *)
Inductive Call : Type :=
| CreateConnectionContext (env : ProcessEnv) (clientSocket : Socket)
    (isSSL : bool) (targetHost : CompleteUrl)
| GetUntrackedAgent (targetHost : CompleteUrl)
| SetConfigApiConnection (clientSocket : Socket) (flag : bool)
| RemoveAllConnectionContexts (event : string)
| RemoveAgent (event clientAddress : string)
| AddTunnel (client target : Socket)
| RemoveTunnel (client : Socket)
| RemoveAndCloseAllTunnels (event : string)
| GetAgent (env : ProcessEnv) (isSSL : bool) (targetHost : CompleteUrl)
| GetConnectionContextFromClientSocket (clientSocket : Socket).

Definition perform (call : Call) : M unit :=
  match call with
  | CreateConnectionContext env clientSocket isSSL targetHost =>
      createConnectionContext env clientSocket isSSL targetHost ;; ret tt
  | GetUntrackedAgent targetHost => getUntrackedAgent targetHost ;; ret tt
  | SetConfigApiConnection clientSocket flag =>
      setConfigApiConnection clientSocket flag
  | RemoveAllConnectionContexts event => removeAllConnectionContexts event
  | RemoveAgent event clientAddress =>
      removeAgent event clientAddress ;; ret tt
  | AddTunnel client target => addTunnel client target
  | RemoveTunnel client => removeTunnel client
  | RemoveAndCloseAllTunnels event => removeAndCloseAllTunnels event
  | GetAgent env isSSL targetHost => getAgent env isSSL targetHost ;; ret tt
  | GetConnectionContextFromClientSocket clientSocket =>
      getConnectionContextFromClientSocket clientSocket ;; ret tt
  end.

(** The calls of [getAgent] made from outside the manager. *)
Definition isGetAgent (call : Call) : bool :=
  match call with GetAgent _ _ _ => true | _ => false end.

Definition directGetAgentCalls (calls : list Call) : nat :=
  length (filter isGetAgent calls).

Fixpoint performAll (calls : list Call) : M unit :=
  match calls with
  | [] => ret tt
  | call :: rest => perform call ;; performAll rest
  end.

(** The contexts of the table [before] whose address is no key of the
    table [after], in table order. *)
Definition leftTable (before after : ConnectionContextHash)
  : list ConnectionContext :=
  map snd (filter (fun kc => negb (JsObject.has (fst kc) after)) before).

(** The contexts that leave the table, call by call. *)
Fixpoint contextsUntracked (calls : list Call)
  (this : ConnectionContextManager) : list ConnectionContext :=
  match calls with
  | [] => []
  | call :: rest =>
      let next := state (perform call this) in
      (leftTable (_connectionContexts this) (_connectionContexts next) ++
       contextsUntracked rest next)%list
  end.

(* ================================================================== *)
(** ** class HttpMitmProxyFacade *)
(* ================================================================== *)

Module HttpMitmProxyFacade.

(** The facade object; [_ntlmProxy] is the wrapped MITM proxy, on which the
    facade makes the calls below. *)
Record t : Type := mkFacade {
  _ntlmProxyListening : bool
}.

Inductive ProxyCall : Type :=
| ProxyUse (module : nat)
| ProxyListen (host : string) (port : N) (keepAlive forceSNI : bool)
| ProxyClose.

(** [constructor] *)
Definition new : t := {| _ntlmProxyListening := false |}.

Definition use (module : nat) (this : t) : t * list ProxyCall :=
  (this, [ProxyUse module]).

(** [listen] hands the proxy its options and a callback and returns the
    promise at once. *)
Definition listen (port : N) (this : t) : t * list ProxyCall :=
  (this, [ProxyListen "127.0.0.1" port true false]).

(** The callback of [listen], run by the proxy with its error, if any;
    [httpPort] is [this._ntlmProxy.httpPort].  The result settles the
    promise: [inl] rejects, [inr] resolves. *)
Definition listen_callback (err : option string) (httpPort : N) (this : t)
  : (string + string) * t :=
  match err with
  | Some e => (inl e, this)
  | None =>
      (inr ("http://127.0.0.1:" ++ NilEmpty.string_of_uint (N.to_uint httpPort)),
       {| _ntlmProxyListening := true |})
  end.

Definition close (this : t) : t * list ProxyCall :=
  if _ntlmProxyListening this then
    ({| _ntlmProxyListening := false |}, [ProxyClose])
  else (this, []).

(** What happens to a facade: calls by its owner, and the proxy running the
    callback of an earlier [listen]. *)
Inductive Op : Type :=
| OpUse (module : nat)
| OpListen (port : N)
| OpListenCallback (err : option string) (httpPort : N)
| OpClose.

Definition step (op : Op) (this : t) : t * list ProxyCall :=
  match op with
  | OpUse module => use module this
  | OpListen port => listen port this
  | OpListenCallback err httpPort => (snd (listen_callback err httpPort this), [])
  | OpClose => close this
  end.

Fixpoint run (ops : list Op) (this : t) : t * list ProxyCall :=
  match ops with
  | [] => (this, [])
  | op :: rest =>
      let '(this1, calls1) := step op this in
      let '(this2, calls2) := run rest this1 in
      (this2, (calls1 ++ calls2)%list)
  end.

Definition isClose (c : ProxyCall) : bool :=
  match c with ProxyClose => true | _ => false end.

Definition isSuccessfulListen (op : Op) : bool :=
  match op with OpListenCallback None _ => true | _ => false end.

Definition closeCalls (calls : list ProxyCall) : nat :=
  length (filter isClose calls).

Definition successfulListens (ops : list Op) : nat :=
  length (filter isSuccessfulListen ops).

Definition isCloseOp (op : Op) : bool :=
  match op with OpClose => true | _ => false end.

(** In a history: some [listen] has succeeded and no [close] was called
    after it. *)
Fixpoint listenedAndNotClosed (ops : list Op) : bool :=
  match ops with
  | [] => false
  | op :: rest =>
      listenedAndNotClosed rest ||
      (isSuccessfulListen op && negb (existsb isCloseOp rest))
  end.

End HttpMitmProxyFacade.

(* ================================================================== *)
(** ** Ports file *)
(* ================================================================== *)

Module PortsFile.

(** Values that [JSON.parse] returns, and [undefined] for a missing
    property.  A number is a rational: every finite double is one. *)
#[local] Unset Elimination Schemes.
Inductive JsValue : Type :=
| JUndefined
| JNull
| JBool (b : bool)
| JNumber (q : Q)
| JString (s : string)
| JArray (items : list JsValue)
| JObject (properties : list (string * JsValue)).
#[local] Set Elimination Schemes.

(** [InvalidArgType] is the [TypeError] with code ERR_INVALID_ARG_TYPE that
    Node throws when [argument] of a function received a value of the wrong
    type. *)
Inductive JsError : Type :=
| SyntaxError (message : string)
| TypeError (message : string)
| URIError (message : string)
| InvalidArgType (argument : string) (received : JsValue)
| Error (message : string).

(** A statement either completes or throws. *)
Inductive Completion (A : Type) : Type :=
| Normal (a : A)
| Throw (e : JsError).
Arguments Normal {A} a.
Arguments Throw {A} e.

Definition andThen {A B : Type} (c : Completion A) (k : A -> Completion B)
  : Completion B :=
  match c with
  | Normal a => k a
  | Throw e => Throw e
  end.

(** [!v] is [negb (truthy v)]. *)
Definition truthy (v : JsValue) : bool :=
  match v with
  | JUndefined => false
  | JNull => false
  | JBool b => b
  | JNumber q => negb (Qeq_bool q 0)
  | JString s => negb (String.eqb s "")
  | JArray _ => true
  | JObject _ => true
  end.

Fixpoint lookup (name : string) (properties : list (string * JsValue))
  : JsValue :=
  match properties with
  | [] => JUndefined
  | (k, v) :: rest => if String.eqb k name then v else lookup name rest
  end.

(** [v.name] on a value that is neither [null] nor [undefined]: an own
    property of an object; the primitives, arrays and [Object.prototype]
    have no property called [configApiUrl] or [ntlmProxyUrl]. *)
Definition member (v : JsValue) (name : string) : JsValue :=
  match v with
  | JObject properties => lookup name properties
  | _ => JUndefined
  end.

(** The object [url.parse] returns: each part is a string or [null]. *)
Record UrlObject : Type := mkUrlObject {
  protocol : option string;
  hostname : option string;
  port : option string
}.

Definition present (part : option string) : bool :=
  match part with
  | Some s => negb (String.eqb s "")
  | None => false
  end.

(** The paths that exist, with the content of each file. *)
Definition FileSystem : Type := string -> option string.

(** How a call of [parsePortsFile] ends: it calls [callback(ports, err)]
    once ([None] is [null]) and returns, or an exception leaves it. *)
Inductive Outcome : Type :=
| Callback (ports : option JsValue) (err : option JsError)
| Uncaught (e : JsError).

Section Node.

(** [JSON.parse] on the text of a file: the value, or the [SyntaxError] it
    throws. *)
Variable JSON_parse : string -> JsValue + JsError.

(** Node's [url.parse] on a string: the parsed parts, or the exception it
    throws on a string it rejects (a [TypeError] for a host name it cannot
    convert, a [URIError] for credentials it cannot decode). *)
Variable url_parse_string : string -> Completion UrlObject.

(** [path.join(getPath.getDataHome(), portsFileName)] *)
Variable portsFile : string.

(** [url.parse(v)].  Node documents it so: a [TypeError] is thrown if
    [urlString] is not a string (ERR_INVALID_ARG_TYPE). *)
Definition url_parse (v : JsValue) : Completion UrlObject :=
  match v with
  | JString s => url_parse_string s
  | _ => Throw (InvalidArgType "url" v)
  end.

Definition validatePortsFile (ports : JsValue) : Completion bool :=
  if negb (truthy ports) then Normal false
  else if negb (truthy (member ports "configApiUrl")) ||
          negb (truthy (member ports "ntlmProxyUrl")) then Normal false
  else
    andThen (url_parse (member ports "configApiUrl")) (fun urltest =>
    if negb (present (protocol urltest)) || negb (present (hostname urltest))
       || negb (present (port urltest)) then Normal false
    else
      andThen (url_parse (member ports "ntlmProxyUrl")) (fun urltest =>
      if negb (present (protocol urltest)) || negb (present (hostname urltest))
         || negb (present (port urltest)) then Normal false
      else Normal true)).

Definition parsePortsFile (fs : FileSystem) : Outcome :=
  match fs portsFile with
  | Some data =>
      match JSON_parse data with
      | inr err => Callback None (Some err)
      | inl ports =>
          match validatePortsFile ports with
          | Throw e => Uncaught e
          | Normal true => Callback (Some ports) None
          | Normal false =>
              Callback None (Some (Error ("Cannot parse " ++ portsFile)))
          end
      end
  | None =>
      Callback None
        (Some (Error
           ("cypress-ntlm-auth proxy does not seem to be running. It must be started before cypress. Please see the docs." ++ portsFile)))
  end.

Definition portsFileExists (fs : FileSystem) : bool :=
  match fs portsFile with Some _ => true | None => false end.

(** [JSON.stringify] on a value JSON can represent. *)
Variable JSON_stringify : JsValue -> string.

(** What the module hands to [debug]. *)
Inductive DebugLine : Type :=
| DebugError (e : JsError)
| DebugText (text : string).

(** [fs.unlink]: a missing path is an error (ENOENT); for a file that
    exists the operating system may still refuse ([refusal]); otherwise the
    file is gone.  The result is the error given to the callback and the
    file system afterwards. *)
Definition fs_unlink (path : string) (refusal : option JsError)
  (fs : FileSystem) : option JsError * FileSystem :=
  match fs path with
  | None => (Some (Error "ENOENT: no such file or directory"), fs)
  | Some _ =>
      match refusal with
      | Some e => (Some e, fs)
      | None => (None, fun p => if String.eqb p path then None else fs p)
      end
  end.

(** [fs.writeFile]: unless the operating system refuses, the file holds
    [data] afterwards, whether it existed or not. *)
Definition fs_writeFile (path data : string) (refusal : option JsError)
  (fs : FileSystem) : option JsError * FileSystem :=
  match refusal with
  | Some e => (Some e, fs)
  | None => (None, fun p => if String.eqb p path then Some data else fs p)
  end.

(** The result of [deletePortsFile] and [savePortsFile]: the argument the
    callback is called with ([None] is [null]), the file system afterwards,
    and the debug lines. *)
Definition deletePortsFile (refusal : option JsError) (fs : FileSystem)
  : option JsError * FileSystem * list DebugLine :=
  let '(err, fs') := fs_unlink portsFile refusal fs in
  match err with
  | Some e =>
      (Some (Error ("Cannot delete " ++ portsFile)), fs', [DebugError e])
  | None => (None, fs', [])
  end.

Definition savePortsFile (ports : JsValue) (refusal : option JsError)
  (fs : FileSystem) : option JsError * FileSystem * list DebugLine :=
  let '(err, fs') :=
    fs_writeFile portsFile (JSON_stringify ports) refusal fs in
  match err with
  | Some e =>
      (Some (Error ("Cannot create " ++ portsFile)), fs', [DebugError e])
  | None => (None, fs', [DebugText ("wrote " ++ portsFile)])
  end.

(** A field holds a non-empty string that [url.parse] splits into a
    protocol, a host name and a port, none of them empty. *)
Definition completeUrlField (v : JsValue) : Prop :=
  exists s u, v = JString s /\ s <> "" /\
    url_parse_string s = Normal u /\
    present (protocol u) = true /\
    present (hostname u) = true /\
    present (port u) = true.

(** A field holds a truthy value that is not a string. *)
Definition truthyNonString (v : JsValue) : Prop :=
  truthy v = true /\ forall s, v <> JString s.

End Node.

End PortsFile.

(* ================================================================== *)
(** ** Upstream proxy manager *)
(* ================================================================== *)

Module UpstreamProxy.

(** The settings read at startup.  The NO_PROXY resolver is kept as the
    decision it takes for a target. *)
Record Settings : Type := mkSettings {
  HTTP_PROXY : option CompleteUrl;
  HTTPS_PROXY : option CompleteUrl;
  noProxyBypass : CompleteUrl -> bool
}.

Inductive Route : Type :=
| Direct
| Via (proxyUrl : CompleteUrl).

(** Modelled from the spec: the class behind [IUpstreamProxyManager] is not
    among the sources.  The proxy variable relevant to a connection is
    HTTP_PROXY for a plain target and, for a TLS target, HTTPS_PROXY, which
    overrides HTTP_PROXY when both are set. *)
Definition relevantProxy (s : Settings) (isSSL : bool) : option CompleteUrl :=
  if isSSL then
    match HTTPS_PROXY s with
    | Some p => Some p
    | None => HTTP_PROXY s
    end
  else HTTP_PROXY s.

(** Modelled from the spec: [resolve(target, isSSL)] of the upstream proxy
    manager, missing from the sources.  It returns direct if the NO_PROXY
    resolver says bypass, or if the relevant proxy variable is empty. *)
Definition resolve (s : Settings) (targetHost : CompleteUrl) (isSSL : bool)
  : Route :=
  if noProxyBypass s targetHost then Direct
  else
    match relevantProxy s isSSL with
    | Some p => Via p
    | None => Direct
    end.

(** Modelled from the spec: [setUpstreamProxyConfig], missing from the
    sources; for a route through the proxy it adds the proxy's host and port
    to the connection options and answers [true]. *)
#[export] Instance manager (s : Settings) : IUpstreamProxyManager := {
  setUpstreamProxyConfig targetHost isSSL o :=
    match resolve s targetHost isSSL with
    | Direct => (false, o)
    | Via p =>
        (true,
         {| keepAlive := keepAlive o;
            maxSockets := maxSockets o;
            rejectUnauthorized := rejectUnauthorized o;
            host := Some (hostname p);
            proxyPort := Some (port p);
            secureProxy := Some (String.eqb (protocol p) "https:") |})
    end
}.

(** Whether requests sent with an agent pass through the upstream proxy. *)
Definition viaUpstreamProxy (a : Agent) : bool :=
  match agentKind a with
  | HttpProxyAgent | HttpsProxyAgent => true
  | HttpAgent | HttpsAgent => false
  end.

(** Modelled from the spec: the request counter of the upstream proxy
    fixture of the tests; it sees each of the [requests] sent upstream with
    an agent that goes through the proxy, and none otherwise. *)
Definition upstreamProxyReqCount (a : Agent) (requests : nat) : nat :=
  if viaUpstreamProxy a then requests else 0.

End UpstreamProxy.

(* ================================================================== *)
(** ** Request interceptor *)
(* ================================================================== *)

Module Interceptor.

Inductive Method : Type := GET | POST | PUT | DELETE.

Inductive Credential : Type :=
| Explicit (username password : string) (domain workstation : option string)
    (ntlmVersion : nat)
| SSO.

(** The NTLM messages are opaque: a Type 2 message is its challenge. *)
Inductive Authorization : Type :=
| Type1
| Type3 (credential : Credential) (challenge : string).

Inductive WwwAuthenticate : Type :=
| OfferNtlm
| OfferNegotiate
| Type2 (challenge : string)
| OtherScheme (scheme : string).

Record Request : Type := mkRequest {
  method : Method;
  targetHost : CompleteUrl;
  path : string;
  body : option string;
  authorization : option Authorization
}.

Record Response : Type := mkResponse {
  status : nat;
  reasonPhrase : string;
  wwwAuthenticate : option WwwAuthenticate;
  responseBody : string
}.

(** The origin server behind one pinned upstream socket: its answer to a
    request may depend on the requests it received before on that socket. *)
Definition Origin : Type := list Request -> Request -> Response.

Definition withAuthorization (a : Authorization) (r : Request) : Request :=
  {| method := method r; targetHost := targetHost r; path := path r;
     body := body r; authorization := Some a |}.

(** [status == 401] and [WWW-Authenticate] contains NTLM or Negotiate. *)
Definition isChallenge (r : Response) : bool :=
  Nat.eqb (status r) 401 &&
  match wwwAuthenticate r with
  | Some OfferNtlm | Some OfferNegotiate | Some (Type2 _) => true
  | _ => false
  end.

(** A 401 that carries a Type 2 message. *)
Definition type2Challenge (r : Response) : option string :=
  if Nat.eqb (status r) 401 then
    match wwwAuthenticate r with
    | Some (Type2 challenge) => Some challenge
    | _ => None
    end
  else None.

Section Proxy.

(** The credential store with the host-pattern matcher, as the lookup it
    performs for a target. *)
Variable credentialFor : CompleteUrl -> option Credential.

(** Modelled from the spec: the request interceptor (the proxy front end) is
    not among the sources.  This is the state machine of section 4.5 for one
    request on a pinned context whose upstream socket already carried
    [history]: without a credential the request is forwarded and the
    response returned verbatim; with one, a 401 challenge starts the
    handshake on the same socket, Type 1 then Type 3, each with the original
    request replayed.  The result is the response for the client and the
    requests sent upstream, in order. *)
Definition handleRequest (origin : Origin) (history : list Request)
  (request : Request) : Response * list Request :=
  match credentialFor (targetHost request) with
  | None => (origin history request, [request])
  | Some credential =>
      let response := origin history request in
      if isChallenge response then
        let type1 := withAuthorization Type1 request in
        let response2 := origin (history ++ [request])%list type1 in
        match type2Challenge response2 with
        | Some challenge =>
            let type3 :=
              withAuthorization (Type3 credential challenge) request in
            let final := origin (history ++ [request; type1])%list type3 in
            (final, [request; type1; type3])
        | None => (response2, [request; type1])
        end
      else (response, [request])
  end.

End Proxy.

End Interceptor.

(* ================================================================== *)
(** ** Sample data *)
(* ================================================================== *)

Module Samples.

Definition localTarget : CompleteUrl :=
  {| protocol := "http:"; hostname := "localhost"; port := 5000%N;
     href := "http://localhost:5000/"; isLocalhost := true |}.

Definition intranetTarget : CompleteUrl :=
  {| protocol := "https:"; hostname := "intranet.example"; port := 443%N;
     href := "https://intranet.example/"; isLocalhost := false |}.

Definition upstreamUrl : CompleteUrl :=
  {| protocol := "http:"; hostname := "proxy.example"; port := 3128%N;
     href := "http://proxy.example:3128/"; isLocalhost := false |}.

Definition httpProxyOnly : UpstreamProxy.Settings :=
  {| UpstreamProxy.HTTP_PROXY := Some upstreamUrl;
     UpstreamProxy.HTTPS_PROXY := None;
     UpstreamProxy.noProxyBypass := fun _ => false |}.

Definition httpsProxyOnly : UpstreamProxy.Settings :=
  {| UpstreamProxy.HTTP_PROXY := None;
     UpstreamProxy.HTTPS_PROXY := Some upstreamUrl;
     UpstreamProxy.noProxyBypass := fun _ => false |}.

Definition blankContext : ConnectionContext :=
  {| clientAddress := ""; agent := None; clientSocket := None;
     socketCloseListener := None; configApiConnection := false |}.

Definition emptyEnv : ProcessEnv := {| NODE_TLS_REJECT_UNAUTHORIZED := None |}.

Definition manager0 : ConnectionContextManager :=
  newManager (UpstreamProxy.manager httpProxyOnly) blankContext.

Definition browser1 : Socket := mkSocket 1 (Some "127.0.0.1") (Some 50001%N).
Definition browser2 : Socket := mkSocket 2 (Some "127.0.0.1") (Some 50002%N).
Definition browser3 : Socket := mkSocket 3 (Some "127.0.0.1") (Some 50003%N).
Definition server1 : Socket := mkSocket 11 (Some "10.0.0.7") (Some 443%N).
Definition server2 : Socket := mkSocket 12 (Some "10.0.0.8") (Some 443%N).

(** The context [createConnectionContext] files for a socket, with the flag
    the config API sets on its own connections. *)
Definition contextOf (s : Socket) (configApi : bool) : ConnectionContext :=
  {| clientAddress := getClientAddress s;
     agent := Some (mkAgent HttpAgent None);
     clientSocket := Some s;
     socketCloseListener := Some (RemoveAgentOnClose (getClientAddress s));
     configApiConnection := configApi |}.

(** Three tracked contexts; the second one serves the config API. *)
Definition manager3 : ConnectionContextManager :=
  set_connectionContexts
    [ (getClientAddress browser1, contextOf browser1 false);
      (getClientAddress browser2, contextOf browser2 true);
      (getClientAddress browser3, contextOf browser3 false) ]
    manager0.

(** Two open tunnels. *)
Definition manager2t : ConnectionContextManager :=
  state (addTunnel browser2 server2 (state (addTunnel browser1 server1 manager0))).

(** The text of a ports file, as [savePortsFile] writes it, and one whose
    [configApiUrl] is a number. *)
Definition dq : string := String (ascii_of_nat 34) EmptyString.

Definition goodPortsText : string :=
  "{" ++ dq ++ "configApiUrl" ++ dq ++ ":" ++ dq ++ "http://127.0.0.1:50001"
  ++ dq ++ "," ++ dq ++ "ntlmProxyUrl" ++ dq ++ ":" ++ dq
  ++ "http://127.0.0.1:50002" ++ dq ++ "}".

Definition numberPortsText : string :=
  "{" ++ dq ++ "configApiUrl" ++ dq ++ ":1," ++ dq ++ "ntlmProxyUrl" ++ dq
  ++ ":" ++ dq ++ "http://127.0.0.1:50002" ++ dq ++ "}".

Definition goodPorts : PortsFile.JsValue :=
  PortsFile.JObject
    [("configApiUrl", PortsFile.JString "http://127.0.0.1:50001");
     ("ntlmProxyUrl", PortsFile.JString "http://127.0.0.1:50002")].

Definition numberPorts : PortsFile.JsValue :=
  PortsFile.JObject
    [("configApiUrl", PortsFile.JNumber 1%Q);
     ("ntlmProxyUrl", PortsFile.JString "http://127.0.0.1:50002")].

(** [JSON.parse] and [url.parse] on the texts above. *)
Definition JSON_parse (data : string) : PortsFile.JsValue + PortsFile.JsError :=
  if String.eqb data goodPortsText then inl goodPorts
  else if String.eqb data numberPortsText then inl numberPorts
  else inr (PortsFile.SyntaxError "Unexpected token").

Definition url_parse_string (s : string)
  : PortsFile.Completion PortsFile.UrlObject :=
  if String.eqb s "http://127.0.0.1:50001" then
    PortsFile.Normal
      (PortsFile.mkUrlObject (Some "http:") (Some "127.0.0.1") (Some "50001"))
  else if String.eqb s "http://127.0.0.1:50002" then
    PortsFile.Normal
      (PortsFile.mkUrlObject (Some "http:") (Some "127.0.0.1") (Some "50002"))
  else if String.eqb s "http://xn--:50001" then
    PortsFile.Throw (PortsFile.TypeError "Invalid URL")
  else PortsFile.Normal (PortsFile.mkUrlObject None None None).

Definition portsFile : string := "/home/user/.local/share/cypress-ntlm-auth.port".

Definition diskWith (data : string) : PortsFile.FileSystem :=
  fun path => if String.eqb path portsFile then Some data else None.

(** [JSON.stringify] on the two values above. *)
Definition JSON_stringify (v : PortsFile.JsValue) : string :=
  match v with
  | PortsFile.JObject
      ((_, PortsFile.JString _) :: _) => goodPortsText
  | _ => numberPortsText
  end.

Definition emptyDisk : PortsFile.FileSystem := fun _ => None.

(** A store with credentials for the intranet host only, and an origin that
    demands NTLM on every socket. *)
Definition credentialFor (target : CompleteUrl) : option Interceptor.Credential :=
  if String.eqb (hostname target) "intranet.example"
  then Some (Interceptor.Explicit "nisse" "manpower" (Some "mptst") None 2)
  else None.

Definition ntlmOrigin : Interceptor.Origin :=
  fun history request =>
    match Interceptor.authorization request with
    | None =>
        Interceptor.mkResponse 401 "Unauthorized"
          (Some Interceptor.OfferNtlm) ""
    | Some Interceptor.Type1 =>
        Interceptor.mkResponse 401 "Unauthorized"
          (Some (Interceptor.Type2 "challenge")) ""
    | Some (Interceptor.Type3 _ _) =>
        Interceptor.mkResponse 200 "OK" None "OK"
    end.

Definition getIntranet : Interceptor.Request :=
  Interceptor.mkRequest Interceptor.GET intranetTarget "/get" None None.

Definition getLocal : Interceptor.Request :=
  Interceptor.mkRequest Interceptor.GET localTarget "/get" None None.

(** A manager whose upstream proxy manager knows an HTTPS proxy only. *)
Definition managerHttpsOnly : ConnectionContextManager :=
  newManager (UpstreamProxy.manager httpsProxyOnly) blankContext.

(** The first request of a browser connection. *)
Definition firstRequest
  : ConnectionContext * ConnectionContextManager * list Event :=
  createConnectionContext emptyEnv browser1 false localTarget manager0.

End Samples.

(* ================================================================== *)
(** * Properties *)
(* ================================================================== *)

(** ** Tables *)

Module JsObjectFacts.
Import JsObject.

Section Facts.
Context {V : Type}.
Implicit Types (k : string) (v : V) (o : JsObject.t V).

Lemma get_set_same k v o : get k (set k v o) = Some v.
Proof.
  induction o as [| [k' v'] rest IH]; simpl.
  - now rewrite String.eqb_refl.
  - destruct (String.eqb k' k) eqn:E; simpl; rewrite E; auto.
Qed.

Lemma get_set_other k k' v o : k' <> k -> get k' (set k v o) = get k' o.
Proof.
  intros Hne. induction o as [| [k0 v0] rest IH]; simpl.
  - destruct (String.eqb_spec k k'); congruence.
  - destruct (String.eqb_spec k0 k) as [-> | Hk]; simpl.
    + destruct (String.eqb_spec k k'); congruence.
    + destruct (String.eqb k0 k'); auto.
Qed.

Lemma get_delete_same k o : get k (delete k o) = None.
Proof.
  induction o as [| [k' v'] rest IH]; simpl; auto.
  destruct (String.eqb k' k) eqn:E; simpl; auto. now rewrite E.
Qed.

Lemma get_delete_other k k' o : k' <> k -> get k' (delete k o) = get k' o.
Proof.
  intros Hne. induction o as [| [k0 v0] rest IH]; simpl; auto.
  destruct (String.eqb_spec k0 k) as [-> | Hk]; simpl.
  - destruct (String.eqb_spec k k'); congruence.
  - now rewrite IH.
Qed.

Lemma delete_absent k o : get k o = None -> delete k o = o.
Proof.
  induction o as [| [k' v'] rest IH]; simpl; auto.
  destruct (String.eqb k' k); [discriminate |].
  intros H. now rewrite IH.
Qed.

Lemma set_absent k v o : get k o = None -> set k v o = (o ++ [(k, v)])%list.
Proof.
  induction o as [| [k' v'] rest IH]; simpl; auto.
  destruct (String.eqb k' k); [discriminate |].
  intros H. now rewrite IH.
Qed.

Lemma get_absent_iff k o : get k o = None <-> ~ In k (keys o).
Proof.
  induction o as [| [k' v'] rest IH]; simpl.
  - tauto.
  - destruct (String.eqb_spec k' k) as [-> | Hk].
    + split; [discriminate | tauto].
    + rewrite IH. tauto.
Qed.

Lemma get_In k v o : get k o = Some v -> In (k, v) o.
Proof.
  induction o as [| [k' v'] rest IH]; simpl; [discriminate |].
  destruct (String.eqb_spec k' k) as [-> | Hk].
  - intros [= ->]. now left.
  - auto.
Qed.

Lemma keys_set_present k v o :
  get k o <> None -> keys (set k v o) = keys o.
Proof.
  induction o as [| [k' v'] rest IH]; simpl; [congruence |].
  destruct (String.eqb_spec k' k) as [-> | Hk]; simpl; auto.
  intros H. now rewrite IH.
Qed.

Lemma keys_delete_subset k k' o : In k' (keys (delete k o)) -> In k' (keys o).
Proof.
  induction o as [| [k0 v0] rest IH]; simpl; auto.
  destruct (String.eqb k0 k); simpl; tauto.
Qed.

End Facts.

Lemma existsb_eqb_In (k : string) (l : list string) :
  existsb (String.eqb k) l = true <-> In k l.
Proof.
  rewrite existsb_exists. split.
  - intros (x & Hin & Heq). apply String.eqb_eq in Heq. now subst.
  - intros Hin. exists k. split; auto. apply String.eqb_refl.
Qed.

Lemma distinct_NoDup (l : list string) : distinct l = true <-> NoDup l.
Proof.
  induction l as [| k rest IH]; simpl.
  - split; auto using NoDup_nil.
  - rewrite andb_true_iff, negb_true_iff, IH. split.
    + intros [Hk Hrest]. constructor; auto.
      intros Hin. apply existsb_eqb_In in Hin. congruence.
    + intros Hnd. inversion Hnd as [| ? ? Hk Hrest]; subst. split; auto.
      destruct (existsb (String.eqb k) rest) eqn:E; auto.
      apply existsb_eqb_In in E. contradiction.
Qed.

Section Distinct.
Context {V : Type}.
Implicit Types (k : string) (v : V) (o : JsObject.t V).

Lemma In_get k v o : NoDup (keys o) -> In (k, v) o -> get k o = Some v.
Proof.
  induction o as [| [k' v'] rest IH]; simpl; [tauto |].
  intros Hnd [Heq | Hin].
  - inversion Heq; subst. now rewrite String.eqb_refl.
  - inversion Hnd as [| ? ? Hk Hrest]; subst.
    destruct (String.eqb_spec k' k) as [-> | Hne]; auto.
    exfalso. apply Hk. change (In (fst (k, v)) (map fst rest)).
    now apply in_map.
Qed.

Lemma NoDup_keys_set k v o : NoDup (keys o) -> NoDup (keys (set k v o)).
Proof.
  intros Hnd. destruct (get k o) eqn:E.
  - rewrite keys_set_present; auto. congruence.
  - rewrite set_absent by auto. unfold keys. rewrite map_app. simpl.
    apply NoDup_app; auto.
    + constructor; [simpl; tauto | constructor].
    + intros x Hx [<- | []]. now apply get_absent_iff in E.
Qed.

Lemma NoDup_keys_delete k o : NoDup (keys o) -> NoDup (keys (delete k o)).
Proof.
  induction o as [| [k' v'] rest IH]; simpl; auto.
  intros Hnd. inversion Hnd as [| ? ? Hk Hrest]; subst.
  destruct (String.eqb k' k); simpl; auto.
  constructor; auto. intros Hin. apply Hk. eapply keys_delete_subset; eauto.
Qed.

End Distinct.

End JsObjectFacts.

(** ** getAgent *)

(** [getAgent] builds one agent, from the options as the upstream proxy
    manager left them, announces it, and leaves the manager as it was. *)
Lemma getAgent_run (this : ConnectionContextManager) env isSSL targetHost :
  exists kind,
    getAgent env isSSL targetHost this =
      (let a := mkAgent kind
                  (Some (snd (@setUpstreamProxyConfig (_upstreamProxyManager this)
                                targetHost isSSL
                                (initialAgentOptions env targetHost)))) in
       (a, this, [NewAgent a])).
Proof.
  unfold getAgent, bind, read, emit, ret, initialAgentOptions. simpl.
  destruct (setUpstreamProxyConfig _ _ _) as [useUpstreamProxy o]. simpl.
  destruct useUpstreamProxy, isSSL; eexists; reflexivity.
Qed.

Lemma getAgent_state (this : ConnectionContextManager) env isSSL targetHost :
  state (getAgent env isSSL targetHost this) = this /\
  trace (getAgent env isSSL targetHost this) =
    [NewAgent (result (getAgent env isSSL targetHost this))].
Proof.
  destruct (getAgent_run this env isSSL targetHost) as [kind ->].
  split; reflexivity.
Qed.

Lemma nodeTlsRejectUnauthorized_false_iff env :
  nodeTlsRejectUnauthorized env = false <->
  NODE_TLS_REJECT_UNAUTHORIZED env = Some "0".
Proof.
  unfold nodeTlsRejectUnauthorized, truthy_env.
  destruct (NODE_TLS_REJECT_UNAUTHORIZED env) as [s |].
  - destruct (String.eqb_spec s "") as [-> | Hne]; simpl.
    + split; discriminate.
    + rewrite negb_false_iff, String.eqb_eq. split; congruence.
  - split; discriminate.
Qed.

Lemma manager_keeps_agent_options (s : UpstreamProxy.Settings) :
  keeps_agent_options (UpstreamProxy.manager s).
Proof.
  intros targetHost isSSL o. simpl.
  destruct (UpstreamProxy.resolve s targetHost isSSL); simpl; auto.
Qed.

(** C1. Whatever the [isSSL] flag, the target host and the answer of the
    upstream proxy manager (which only adds its proxy settings to the
    options), the agent [getAgent] builds is constructed with options in
    which [maxSockets] is 1 and [keepAlive] is true. *)
Theorem getAgent_maxSockets_keepAlive :
  forall (this : ConnectionContextManager) (env : ProcessEnv) (isSSL : bool)
         (targetHost : CompleteUrl),
    keeps_agent_options (_upstreamProxyManager this) ->
    exists o,
      agentOptions (result (getAgent env isSSL targetHost this)) = Some o /\
      maxSockets o = 1 /\ keepAlive o = true.
Proof.
  intros this env isSSL targetHost Hkeeps.
  destruct (getAgent_run this env isSSL targetHost) as [kind ->].
  destruct (Hkeeps targetHost isSSL (initialAgentOptions env targetHost))
    as (Hka & Hms & _).
  eexists. split; [reflexivity |]. simpl in *. split; congruence.
Qed.

Lemma getAgent_maxSockets_keepAlive_witness :
  keeps_agent_options (_upstreamProxyManager Samples.manager0) /\
  exists o,
    agentOptions
      (result (getAgent Samples.emptyEnv false Samples.intranetTarget
                 Samples.manager0)) = Some o /\
    maxSockets o = 1 /\ keepAlive o = true.
Proof.
  assert (H : keeps_agent_options (_upstreamProxyManager Samples.manager0)).
  { intros targetHost isSSL o. simpl.
    destruct (UpstreamProxy.resolve _ targetHost isSSL); simpl; auto. }
  split; [exact H |].
  exact (getAgent_maxSockets_keepAlive Samples.manager0 Samples.emptyEnv false
           Samples.intranetTarget H).
Defined.

(** C5. The agent [getAgent] builds (the upstream proxy manager only adding
    its proxy settings) verifies upstream certificates exactly when
    NODE_TLS_REJECT_UNAUTHORIZED is unset or differs from ["0"] and the
    target is not localhost; verification is off for every localhost target
    and, when the variable is ["0"], for every target. *)
Theorem getAgent_rejectUnauthorized :
  forall (this : ConnectionContextManager) (env : ProcessEnv) (isSSL : bool)
         (targetHost : CompleteUrl),
    keeps_agent_options (_upstreamProxyManager this) ->
    exists o,
      agentOptions (result (getAgent env isSSL targetHost this)) = Some o /\
      (rejectUnauthorized o = true <->
         (NODE_TLS_REJECT_UNAUTHORIZED env = None \/
          exists v, NODE_TLS_REJECT_UNAUTHORIZED env = Some v /\ v <> "0") /\
         isLocalhost targetHost = false) /\
      (isLocalhost targetHost = true -> rejectUnauthorized o = false) /\
      (NODE_TLS_REJECT_UNAUTHORIZED env = Some "0" ->
         rejectUnauthorized o = false).
Proof.
  intros this env isSSL targetHost Hkeeps.
  destruct (getAgent_run this env isSSL targetHost) as [kind ->].
  destruct (Hkeeps targetHost isSSL (initialAgentOptions env targetHost))
    as (_ & _ & Hru).
  eexists. split; [reflexivity |]. simpl in *. rewrite Hru. clear Hru.
  split; [| split].
  - rewrite andb_true_iff, negb_true_iff. split.
    + intros [Hn Hl]. split; auto.
      destruct (NODE_TLS_REJECT_UNAUTHORIZED env) as [v |] eqn:E; auto.
      right. exists v. split; auto. intros ->.
      apply nodeTlsRejectUnauthorized_false_iff in E. congruence.
    + intros [Hn Hl]. split; auto.
      apply not_false_is_true. intros E.
      apply nodeTlsRejectUnauthorized_false_iff in E.
      destruct Hn as [Hn | (v & Hv & Hne)]; congruence.
  - intros ->. apply andb_false_r.
  - intros H0. apply nodeTlsRejectUnauthorized_false_iff in H0. now rewrite H0.
Qed.

Lemma getAgent_rejectUnauthorized_witness :
  keeps_agent_options (_upstreamProxyManager Samples.manager0) /\
  exists o,
    agentOptions
      (result (getAgent (mkProcessEnv (Some "1")) true Samples.intranetTarget
                 Samples.manager0)) = Some o /\
    rejectUnauthorized o = true.
Proof.
  assert (H : keeps_agent_options (_upstreamProxyManager Samples.manager0)).
  { intros targetHost isSSL o. simpl.
    destruct (UpstreamProxy.resolve _ targetHost isSSL); simpl; auto. }
  split; [exact H |].
  destruct (getAgent_rejectUnauthorized Samples.manager0
              (mkProcessEnv (Some "1")) true Samples.intranetTarget H)
    as (o & Ho & Hiff & _).
  exists o. split; [exact Ho |]. apply Hiff. split; [| reflexivity].
  right. exists "1". split; [reflexivity | discriminate].
Defined.

(** ** createConnectionContext and the lookup *)

Lemma createConnectionContext_stored
  (this : ConnectionContextManager) env socket isSSL targetHost stored :
  JsObject.get (getClientAddress socket) (_connectionContexts this) = Some stored ->
  createConnectionContext env socket isSSL targetHost this = (stored, this, []).
Proof.
  intros H. unfold createConnectionContext, bind, read. simpl. now rewrite H.
Qed.

Lemma createConnectionContext_fresh
  (this : ConnectionContextManager) env socket isSSL targetHost :
  JsObject.get (getClientAddress socket) (_connectionContexts this) = None ->
  createConnectionContext env socket isSSL targetHost this =
    (let context := createdContext this env socket isSSL targetHost in
     (context,
      set_connectionContexts
        (JsObject.set (getClientAddress socket) context
           (_connectionContexts this))
        (set_agentCount (S (_agentCount this)) this),
      [NewAgent (result (getAgent env isSSL targetHost this));
       NewContext;
       SocketOnce socket "close" (RemoveAgentOnClose (getClientAddress socket));
       DebugLog ["Created agent for client " ++ getClientAddress socket ++
                 " to target " ++ href targetHost]])).
Proof.
  intros H. unfold createConnectionContext, createdContext, bind, read. simpl.
  rewrite H.
  destruct (getAgent_run this env isSSL targetHost) as [kind ->].
  reflexivity.
Qed.

Lemma getConnectionContextFromClientSocket_run
  (this : ConnectionContextManager) socket :
  getConnectionContextFromClientSocket socket this =
    (JsObject.get (getClientAddress socket) (_connectionContexts this), this, []).
Proof.
  unfold getConnectionContextFromClientSocket, bind, read. simpl.
  destruct (JsObject.get _ _); reflexivity.
Qed.

(** C4. There is at most one context per client address: a call of
    [createConnectionContext] for an address that is not tracked builds one
    agent, stores a context holding it under that address and registers a
    close listener on the socket; a call for a tracked address, and so every
    later call with a socket of the same address, returns the stored context
    and changes nothing, creating no agent; the lookup returns the stored
    context when there is one and nothing otherwise. *)
Theorem createConnectionContext_one_per_clientAddress :
  forall (this : ConnectionContextManager) (env : ProcessEnv) (socket : Socket)
         (isSSL : bool) (targetHost : CompleteUrl),
    distinct (JsObject.keys (_connectionContexts this)) = true ->
    let address := getClientAddress socket in
    let r := createConnectionContext env socket isSSL targetHost this in
    distinct (JsObject.keys (_connectionContexts (state r))) = true /\
    (JsObject.get address (_connectionContexts this) = None ->
       result r = createdContext this env socket isSSL targetHost /\
       agentsCreated (trace r) = [result (getAgent env isSSL targetHost this)] /\
       In (SocketOnce socket "close" (RemoveAgentOnClose address)) (trace r) /\
       _agentCount (state r) = S (_agentCount this) /\
       forall other, other <> address ->
         JsObject.get other (_connectionContexts (state r)) =
         JsObject.get other (_connectionContexts this)) /\
    (forall stored,
       JsObject.get address (_connectionContexts this) = Some stored ->
       r = (stored, this, [])) /\
    JsObject.get address (_connectionContexts (state r)) = Some (result r) /\
    (forall env' socket' isSSL' targetHost',
       getClientAddress socket' = address ->
       createConnectionContext env' socket' isSSL' targetHost' (state r) =
         (result r, state r, [])) /\
    (forall socket',
       getConnectionContextFromClientSocket socket' this =
         (JsObject.get (getClientAddress socket') (_connectionContexts this),
          this, [])).
Proof.
  intros this env socket isSSL targetHost Hdistinct address r.
  assert (Hstored : JsObject.get address (_connectionContexts (state r)) =
                    Some (result r)).
  { subst r. destruct (JsObject.get address (_connectionContexts this)) eqn:E.
    - rewrite (createConnectionContext_stored this env socket isSSL targetHost _ E).
      exact E.
    - rewrite (createConnectionContext_fresh this env socket isSSL targetHost E).
      simpl. apply JsObjectFacts.get_set_same. }
  repeat split.
  - subst r. destruct (JsObject.get address (_connectionContexts this)) eqn:E.
    + now rewrite (createConnectionContext_stored this env socket isSSL targetHost _ E).
    + rewrite (createConnectionContext_fresh this env socket isSSL targetHost E).
      simpl. apply JsObjectFacts.distinct_NoDup.
      apply JsObjectFacts.NoDup_keys_set.
      now apply JsObjectFacts.distinct_NoDup.
  - subst r. now rewrite (createConnectionContext_fresh this env socket isSSL targetHost H).
  - subst r. now rewrite (createConnectionContext_fresh this env socket isSSL targetHost H).
  - subst r. rewrite (createConnectionContext_fresh this env socket isSSL targetHost H).
    simpl. tauto.
  - subst r. now rewrite (createConnectionContext_fresh this env socket isSSL targetHost H).
  - intros other Hother. subst r.
    rewrite (createConnectionContext_fresh this env socket isSSL targetHost H).
    simpl. now apply JsObjectFacts.get_set_other.
  - intros stored E. subst r.
    apply (createConnectionContext_stored this env socket isSSL targetHost _ E).
  - exact Hstored.
  - intros env' socket' isSSL' targetHost' Haddr.
    apply createConnectionContext_stored. now rewrite Haddr.
  - intros socket'. apply getConnectionContextFromClientSocket_run.
Qed.

(** A keep-alive client: the second request on the same socket gets the
    context of the first, and one agent is built in all. *)
Lemma createConnectionContext_one_per_clientAddress_witness :
  distinct (JsObject.keys (_connectionContexts Samples.manager0)) = true /\
  JsObject.get (getClientAddress Samples.browser1)
    (_connectionContexts Samples.manager0) = None /\
  agentsCreated (trace Samples.firstRequest) =
    [result (getAgent Samples.emptyEnv false Samples.localTarget Samples.manager0)] /\
  createConnectionContext Samples.emptyEnv Samples.browser1 true
    Samples.intranetTarget (state Samples.firstRequest) =
    (result Samples.firstRequest, state Samples.firstRequest, []).
Proof.
  assert (Hd : distinct (JsObject.keys (_connectionContexts Samples.manager0)) = true)
    by reflexivity.
  assert (Hn : JsObject.get (getClientAddress Samples.browser1)
                 (_connectionContexts Samples.manager0) = None)
    by reflexivity.
  destruct (createConnectionContext_one_per_clientAddress Samples.manager0
              Samples.emptyEnv Samples.browser1 false Samples.localTarget Hd)
    as (_ & Hfresh & _ & _ & Hlater & _).
  destruct (Hfresh Hn) as (_ & Hagents & _).
  split; [exact Hd |]. split; [exact Hn |]. split; [exact Hagents |].
  apply Hlater. reflexivity.
Defined.

(** ** removeAgent *)

Lemma removeAgent_absent (this : ConnectionContextManager) event address :
  JsObject.get address (_connectionContexts this) = None ->
  removeAgent event address this =
    (if JsObject.inherited address then NotAFunction "destroy" else Returned tt,
     this, []).
Proof.
  intros H. unfold removeAgent, bind, read, JsObject.isIn, JsObject.has.
  simpl. rewrite H. simpl. now destruct (JsObject.inherited address).
Qed.

Lemma removeAgent_tracked (this : ConnectionContextManager) event address context :
  JsObject.get address (_connectionContexts this) = Some context ->
  removeAgent event address this =
    (Returned tt,
     set_connectionContexts
       (JsObject.delete address (_connectionContexts this)) this,
     List.app
       (match clientSocket context with
        | Some s => [SocketRemoveListener s "close" (socketCloseListener context)]
        | None => []
        end)
       [ContextDestroy context event;
        DebugLog ["Removed agent for " ++ address ++ " due to socket." ++ event]]).
Proof.
  intros H. unfold removeAgent, removeCloseListener, bind, read,
    JsObject.isIn, JsObject.has. simpl.
  rewrite H. simpl. destruct (clientSocket context); reflexivity.
Qed.

Lemma removeAgent_forgets (this : ConnectionContextManager) event address :
  JsObject.get address
    (_connectionContexts (state (removeAgent event address this))) = None.
Proof.
  destruct (JsObject.get address (_connectionContexts this)) eqn:E.
  - rewrite (removeAgent_tracked this event address _ E). simpl.
    apply JsObjectFacts.get_delete_same.
  - now rewrite (removeAgent_absent this event address E).
Qed.

(** C9. [removeAgent] with any string that is not a key of the context
    table leaves the manager, its table and every stored context as they
    were, and makes no call at all, so destroys nothing.  It returns, unless
    the string is a name inherited from [Object.prototype]: then the call
    ends in a [TypeError] ([destroy] is not a function), still with nothing
    changed and nothing called.  After a [removeAgent] the address is no
    key, hence a second [removeAgent] for it changes and calls nothing. *)
Theorem removeAgent_untracked_noop :
  forall (this : ConnectionContextManager) (event address : string),
    (JsObject.get address (_connectionContexts this) = None ->
     removeAgent event address this =
       (if JsObject.inherited address
        then NotAFunction "destroy" else Returned tt,
        this, [])) /\
    (forall event',
       let once := removeAgent event address this in
       removeAgent event' address (state once) =
         (if JsObject.inherited address
          then NotAFunction "destroy" else Returned tt,
          state once, [])).
Proof.
  intros this event address. split.
  - apply removeAgent_absent.
  - intros event' once. apply removeAgent_absent. apply removeAgent_forgets.
Qed.

(** An address that is not tracked, and the inherited name
    [constructor]. *)
Lemma removeAgent_untracked_noop_witness :
  JsObject.get "127.0.0.1:50009" (_connectionContexts Samples.manager3) = None /\
  removeAgent "close" "127.0.0.1:50009" Samples.manager3 =
    (Returned tt, Samples.manager3, []) /\
  JsObject.get "constructor" (_connectionContexts Samples.manager3) = None /\
  removeAgent "close" "constructor" Samples.manager3 =
    (NotAFunction "destroy", Samples.manager3, []).
Proof.
  split; [reflexivity |]. split.
  - apply (proj1 (removeAgent_untracked_noop Samples.manager3 "close"
                    "127.0.0.1:50009")).
    reflexivity.
  - split; [reflexivity |].
    apply (proj1 (removeAgent_untracked_noop Samples.manager3 "close"
                    "constructor")).
    reflexivity.
Defined.

(** ** removeAllConnectionContexts *)

Lemma removeAllConnectionContexts_loop_run event properties :
  forall preserved (this : ConnectionContextManager),
    removeAllConnectionContexts_loop event properties preserved this =
      (fold_left
         (fun acc kc =>
            if isConfigApi kc
            then JsObject.set (clientAddress (snd kc)) (snd kc) acc
            else acc)
         properties preserved,
       this,
       flat_map
         (fun kc => if isConfigApi kc then [] else destroyCalls event (snd kc))
         properties).
Proof.
  induction properties as [| [property context] rest IH]; intros preserved this.
  - reflexivity.
  - simpl.
    change (isConfigApi (property, context)) with (configApiConnection context).
    destruct (configApiConnection context).
    + apply IH.
    + unfold bind, removeCloseListener, destroyCalls, emit, ret.
      destruct (clientSocket context); simpl; now rewrite IH.
Qed.

Lemma forallb_keyed_cons property context (rest : ConnectionContextHash) :
  forallb (fun kc => String.eqb (clientAddress (snd kc)) (fst kc))
    ((property, context) :: rest) = true ->
  clientAddress context = property /\
  forallb (fun kc => String.eqb (clientAddress (snd kc)) (fst kc)) rest = true.
Proof.
  simpl. rewrite andb_true_iff, String.eqb_eq. tauto.
Qed.

(** Under the invariant the preserved table is the old one without the
    contexts that do not serve the config API. *)
Lemma preserved_is_filter (properties : ConnectionContextHash) :
  forall preserved : ConnectionContextHash,
    NoDup (JsObject.keys properties) ->
    forallb (fun kc => String.eqb (clientAddress (snd kc)) (fst kc))
      properties = true ->
    (forall k, In k (JsObject.keys preserved) ->
               ~ In k (JsObject.keys properties)) ->
    fold_left
      (fun acc kc =>
         if isConfigApi kc
         then JsObject.set (clientAddress (snd kc)) (snd kc) acc
         else acc)
      properties preserved =
    (preserved ++ filter isConfigApi properties)%list.
Proof.
  induction properties as [| [property context] rest IH];
    intros preserved Hnd Hkeyed Hfresh.
  - simpl. now rewrite app_nil_r.
  - inversion Hnd as [| ? ? Hnotin Hnd']; subst.
    apply forallb_keyed_cons in Hkeyed. destruct Hkeyed as [Hkey Hkeyed].
    simpl.
    change (isConfigApi (property, context)) with (configApiConnection context).
    destruct (configApiConnection context).
    + rewrite Hkey. rewrite JsObjectFacts.set_absent.
      * rewrite IH; auto.
        -- now rewrite <- app_assoc.
        -- intros k Hk. unfold JsObject.keys in Hk. rewrite map_app in Hk.
           apply in_app_or in Hk. destruct Hk as [Hk | [<- | []]]; auto.
           intros Hin. apply (Hfresh k Hk). simpl. now right.
      * apply JsObjectFacts.get_absent_iff. intros Hin.
        apply (Hfresh _ Hin). simpl. now left.
    + apply IH; auto.
      intros k Hk Hin. apply (Hfresh k Hk). simpl. now right.
Qed.

Lemma contexts_wf_spec (h : ConnectionContextHash) :
  contexts_wf h = true <->
  NoDup (JsObject.keys h) /\
  forallb (fun kc => String.eqb (clientAddress (snd kc)) (fst kc)) h = true.
Proof.
  unfold contexts_wf. now rewrite andb_true_iff, JsObjectFacts.distinct_NoDup.
Qed.

Lemma NoDup_keys_filter {V : Type} (f : string * V -> bool) (o : JsObject.t V) :
  NoDup (JsObject.keys o) -> NoDup (JsObject.keys (filter f o)).
Proof.
  induction o as [| [k v] rest IH]; simpl; auto.
  intros Hnd. inversion Hnd as [| ? ? Hnotin Hnd']; subst.
  destruct (f (k, v)); simpl; auto.
  constructor; auto. intros Hin. apply Hnotin.
  unfold JsObject.keys in *. apply in_map_iff in Hin.
  destruct Hin as ([k' v'] & Hfst & Hin). simpl in Hfst. subst k'.
  apply filter_In in Hin. destruct Hin as [Hin _].
  change k with (fst (k, v')). now apply in_map.
Qed.

Lemma removeAllConnectionContexts_run (this : ConnectionContextManager) event :
  contexts_wf (_connectionContexts this) = true ->
  removeAllConnectionContexts event this =
    (tt,
     set_connectionContexts
       (filter isConfigApi (_connectionContexts this)) this,
     List.app
       (flat_map
          (fun kc => if isConfigApi kc then [] else destroyCalls event (snd kc))
          (_connectionContexts this))
       [DebugLog ["Removed all agents due to " ++ event]]).
Proof.
  intros Hwf. apply contexts_wf_spec in Hwf. destruct Hwf as [Hnd Hkeyed].
  unfold removeAllConnectionContexts, bind, read, write, emit. simpl.
  rewrite removeAllConnectionContexts_loop_run.
  rewrite preserved_is_filter.
  - reflexivity.
  - exact Hnd.
  - exact Hkeyed.
  - intros k [].
Qed.

Lemma contextsDestroyed_app tr1 tr2 :
  contextsDestroyed (tr1 ++ tr2) =
  (contextsDestroyed tr1 ++ contextsDestroyed tr2)%list.
Proof.
  induction tr1 as [| e rest IH]; simpl; auto.
  destruct e; simpl; auto. now rewrite IH.
Qed.

Lemma contextsDestroyed_destroyCalls event context :
  contextsDestroyed (destroyCalls event context) = [context].
Proof.
  unfold destroyCalls. destruct (clientSocket context); reflexivity.
Qed.

Lemma contextsDestroyed_loop event (properties : ConnectionContextHash) :
  contextsDestroyed
    (flat_map
       (fun kc => if isConfigApi kc then [] else destroyCalls event (snd kc))
       properties) =
  map snd (filter (fun kc => negb (isConfigApi kc)) properties).
Proof.
  induction properties as [| [property context] rest IH]; simpl; auto.
  rewrite contextsDestroyed_app, IH.
  destruct (isConfigApi (property, context)); simpl; auto.
  now rewrite contextsDestroyed_destroyCalls.
Qed.

Lemma deregistered_nil : deregistered_before_destroy [].
Proof.
  intros before context event after H.
  destruct before; discriminate.
Qed.

Lemma deregistered_skip e tr :
  (forall c ev, e <> ContextDestroy c ev) ->
  deregistered_before_destroy tr -> deregistered_before_destroy (e :: tr).
Proof.
  intros Hne Htr before context event after Heq socket Hsock.
  destruct before as [| e' before']; simpl in Heq.
  - inversion Heq; subst. now destruct (Hne context event).
  - inversion Heq; subst. right. eapply Htr; eauto.
Qed.

Lemma deregistered_destroyCalls event context tr :
  deregistered_before_destroy tr ->
  deregistered_before_destroy (destroyCalls event context ++ tr).
Proof.
  intros Htr. unfold destroyCalls.
  assert (Htail : forall before c ev after s,
            (DebugLog ["Destroying context for"; clientAddress context]
               :: ContextDestroy context event :: tr =
             before ++ ContextDestroy c ev :: after)%list ->
            clientSocket c = Some s ->
            c = context \/
            In (SocketRemoveListener s "close" (socketCloseListener c)) before).
  { intros before c ev after s Heq Hs.
    destruct before as [| e1 before]; simpl in Heq; [discriminate |].
    inversion Heq as [[He1 Heq']]; subst e1.
    destruct before as [| e2 before]; simpl in Heq'.
    - left. congruence.
    - inversion Heq' as [[He2 Heq'']]; subst e2.
      right. right. right. eapply Htr; eauto. }
  destruct (clientSocket context) as [s0 |] eqn:Es.
  - intros before c ev after Heq s Hs. simpl in Heq.
    destruct before as [| e0 before]; simpl in Heq; [discriminate |].
    inversion Heq as [[He0 Heq']]; subst e0.
    destruct (Htail before c ev after s Heq' Hs) as [-> | Hin].
    + left. congruence.
    + now right.
  - intros before c ev after Heq s Hs. simpl in Heq.
    destruct (Htail before c ev after s Heq Hs) as [-> | Hin]; auto.
    congruence.
Qed.

Lemma deregistered_loop event (properties : ConnectionContextHash) tr :
  deregistered_before_destroy tr ->
  deregistered_before_destroy
    (flat_map
       (fun kc => if isConfigApi kc then [] else destroyCalls event (snd kc))
       properties ++ tr).
Proof.
  intros Htr. induction properties as [| [property context] rest IH]; simpl; auto.
  destruct (isConfigApi (property, context)); simpl; auto.
  rewrite <- app_assoc. now apply deregistered_destroyCalls.
Qed.

Lemma get_filter_configApi (h : ConnectionContextHash) address context :
  NoDup (JsObject.keys h) ->
  JsObject.get address h = Some context ->
  JsObject.get address (filter isConfigApi h) =
    if configApiConnection context then Some context else None.
Proof.
  intros Hnd Hget. destruct (configApiConnection context) eqn:Hflag.
  - apply JsObjectFacts.In_get.
    + now apply NoDup_keys_filter.
    + apply filter_In. split; [now apply JsObjectFacts.get_In | exact Hflag].
  - destruct (JsObject.get address (filter isConfigApi h)) as [c |] eqn:E; auto.
    apply JsObjectFacts.get_In in E. apply filter_In in E.
    destruct E as [Hin Hc]. apply (JsObjectFacts.In_get _ _ _ Hnd) in Hin.
    unfold isConfigApi in Hc. simpl in Hc. congruence.
Qed.

(** C3. With every context filed under its own client address,
    [removeAllConnectionContexts] leaves in the table exactly the contexts
    flagged [configApiConnection], calls [destroy] on exactly the others,
    and in its trace every [destroy] of a context comes after the removal of
    that context's close listener from its client socket; a flagged context
    stays under its address and is not destroyed, an unflagged one is
    destroyed and its address leaves the table. *)
Theorem removeAllConnectionContexts_spares_configApi :
  forall (this : ConnectionContextManager) (event : string),
    contexts_wf (_connectionContexts this) = true ->
    let r := removeAllConnectionContexts event this in
    _connectionContexts (state r) =
      filter isConfigApi (_connectionContexts this) /\
    contextsDestroyed (trace r) =
      map snd (filter (fun kc => negb (isConfigApi kc))
                 (_connectionContexts this)) /\
    deregistered_before_destroy (trace r) /\
    (forall address context,
       JsObject.get address (_connectionContexts this) = Some context ->
       if configApiConnection context
       then JsObject.get address (_connectionContexts (state r)) = Some context
            /\ ~ In context (contextsDestroyed (trace r))
       else JsObject.get address (_connectionContexts (state r)) = None
            /\ In (ContextDestroy context event) (trace r)) /\
    _tunnels (state r) = _tunnels this.
Proof.
  intros this event Hwf r. subst r.
  rewrite (removeAllConnectionContexts_run this event Hwf).
  apply contexts_wf_spec in Hwf. destruct Hwf as [Hnd Hkeyed].
  unfold state, trace, result. simpl.
  split; [reflexivity |]. split; [| split; [| split; [| reflexivity]]].
  - rewrite contextsDestroyed_app, contextsDestroyed_loop. simpl.
    apply app_nil_r.
  - apply deregistered_loop. apply deregistered_skip.
    + discriminate.
    + apply deregistered_nil.
  - intros address context Hget.
    rewrite (get_filter_configApi _ address context Hnd Hget).
    destruct (configApiConnection context) eqn:Hflag.
    + split; [reflexivity |].
      rewrite contextsDestroyed_app, contextsDestroyed_loop. simpl.
      rewrite app_nil_r. intros Hin. apply in_map_iff in Hin.
      destruct Hin as ([k c] & Hc & Hin). simpl in Hc. subst c.
      apply filter_In in Hin. destruct Hin as [_ Hneg].
      unfold isConfigApi in Hneg. simpl in Hneg. rewrite Hflag in Hneg.
      discriminate.
    + split; [reflexivity |].
      apply in_or_app. left. apply in_flat_map.
      exists (address, context). split.
      * now apply JsObjectFacts.get_In.
      * unfold isConfigApi. simpl. rewrite Hflag. unfold destroyCalls.
        apply in_or_app. right. simpl. tauto.
Qed.

(** A reset with three tracked contexts, the second serving the config
    API. *)
Lemma removeAllConnectionContexts_spares_configApi_witness :
  contexts_wf (_connectionContexts Samples.manager3) = true /\
  _connectionContexts
    (state (removeAllConnectionContexts "reset" Samples.manager3)) =
    [(getClientAddress Samples.browser2, Samples.contextOf Samples.browser2 true)] /\
  contextsDestroyed (trace (removeAllConnectionContexts "reset" Samples.manager3)) =
    [Samples.contextOf Samples.browser1 false;
     Samples.contextOf Samples.browser3 false].
Proof.
  assert (Hwf : contexts_wf (_connectionContexts Samples.manager3) = true)
    by reflexivity.
  destruct (removeAllConnectionContexts_spares_configApi Samples.manager3
              "reset" Hwf) as (Htable & Hdestroyed & _).
  split; [exact Hwf |]. split; [exact Htable | exact Hdestroyed].
Defined.

(** The operations of the manager keep the invariant of the context
    table. *)
Lemma createConnectionContext_wf
  (this : ConnectionContextManager) env socket isSSL targetHost :
  contexts_wf (_connectionContexts this) = true ->
  contexts_wf
    (_connectionContexts
       (state (createConnectionContext env socket isSSL targetHost this))) = true.
Proof.
  intros Hwf.
  destruct (JsObject.get (getClientAddress socket) (_connectionContexts this))
    eqn:E.
  - now rewrite (createConnectionContext_stored this env socket isSSL targetHost _ E).
  - rewrite (createConnectionContext_fresh this env socket isSSL targetHost E).
    unfold state. simpl.
    apply contexts_wf_spec in Hwf. destruct Hwf as [Hnd Hkeyed].
    apply contexts_wf_spec. split.
    + now apply JsObjectFacts.NoDup_keys_set.
    + rewrite JsObjectFacts.set_absent by exact E.
      rewrite forallb_app, Hkeyed. simpl. now rewrite String.eqb_refl.
Qed.

Lemma forallb_delete {V : Type} (f : string * V -> bool) k (o : JsObject.t V) :
  forallb f o = true -> forallb f (JsObject.delete k o) = true.
Proof.
  induction o as [| [k' v'] rest IH]; simpl; auto.
  rewrite andb_true_iff. intros [Hhead Hrest].
  destruct (String.eqb k' k); simpl; auto. now rewrite Hhead, IH.
Qed.

Lemma removeAgent_wf (this : ConnectionContextManager) event address :
  contexts_wf (_connectionContexts this) = true ->
  contexts_wf
    (_connectionContexts (state (removeAgent event address this))) = true.
Proof.
  intros Hwf.
  destruct (JsObject.get address (_connectionContexts this)) eqn:E.
  - rewrite (removeAgent_tracked this event address _ E). unfold state. simpl.
    apply contexts_wf_spec in Hwf. destruct Hwf as [Hnd Hkeyed].
    apply contexts_wf_spec. split.
    + now apply JsObjectFacts.NoDup_keys_delete.
    + now apply forallb_delete.
  - now rewrite (removeAgent_absent this event address E).
Qed.

Lemma removeAllConnectionContexts_wf (this : ConnectionContextManager) event :
  contexts_wf (_connectionContexts this) = true ->
  contexts_wf
    (_connectionContexts (state (removeAllConnectionContexts event this))) = true.
Proof.
  intros Hwf. rewrite (removeAllConnectionContexts_run this event Hwf).
  unfold state. simpl.
  apply contexts_wf_spec in Hwf. destruct Hwf as [Hnd Hkeyed].
  apply contexts_wf_spec. split.
  - now apply NoDup_keys_filter.
  - rewrite forallb_forall in *. intros kc Hin. apply Hkeyed.
    apply filter_In in Hin. tauto.
Qed.

(** ** Tunnels *)

Lemma removeAndCloseAllTunnels_loop_run (properties : SslTunnelHash) :
  forall this : ConnectionContextManager,
    removeAndCloseAllTunnels_loop properties this =
      (tt, this,
       flat_map
         (fun kt => match target (snd kt) with
                    | Some t => [SocketEnd t]
                    | None => []
                    end)
         properties).
Proof.
  induction properties as [| [property tunnel] rest IH]; intros this.
  - reflexivity.
  - simpl. unfold bind, emit, ret.
    destruct (target tunnel); simpl; now rewrite IH.
Qed.

Lemma removeAndCloseAllTunnels_run (this : ConnectionContextManager) event :
  removeAndCloseAllTunnels event this =
    (tt, set_tunnels JsObject.empty this,
     List.app
       (flat_map
          (fun kt => match target (snd kt) with
                     | Some t => [SocketEnd t]
                     | None => []
                     end)
          (_tunnels this))
       [DebugLog ["Removed and closed all tunnels due to " ++ event]]).
Proof.
  unfold removeAndCloseAllTunnels, bind, read, write, emit. simpl.
  now rewrite removeAndCloseAllTunnels_loop_run.
Qed.

Lemma socketsEnded_app tr1 tr2 :
  socketsEnded (tr1 ++ tr2) = (socketsEnded tr1 ++ socketsEnded tr2)%list.
Proof.
  induction tr1 as [| e rest IH]; simpl; auto.
  destruct e; simpl; auto. now rewrite IH.
Qed.

Lemma socketsEnded_In tr s : In s (socketsEnded tr) <-> In (SocketEnd s) tr.
Proof.
  induction tr as [| e rest IH]; simpl; [tauto |].
  destruct e; simpl; rewrite IH; split;
    try (intros [H | H]; [discriminate | exact H]); auto.
  - intros [-> | H]; auto.
  - intros [[= ->] | H]; auto.
Qed.

Lemma addTunnel_wf (this : ConnectionContextManager) client target :
  tunnels_wf (_tunnels this) = true ->
  tunnels_wf (_tunnels (state (addTunnel client target this))) = true.
Proof.
  unfold addTunnel, write, state, tunnels_wf. simpl.
  generalize (getClientAddress client). intros address.
  induction (_tunnels this) as [| [k t] rest IH]; simpl; auto.
  rewrite andb_true_iff. intros [Hhead Hrest].
  destruct (String.eqb k address); simpl.
  - exact Hrest.
  - now rewrite Hhead, IH.
Qed.

Lemma removeTunnel_wf (this : ConnectionContextManager) client :
  tunnels_wf (_tunnels this) = true ->
  tunnels_wf (_tunnels (state (removeTunnel client this))) = true.
Proof.
  intros Hwf. unfold removeTunnel, bind, read, write, ret, state. simpl.
  destruct (JsObject.has _ _); simpl; auto.
  now apply forallb_delete.
Qed.

(** C6. With every tunnel holding its target socket, as [addTunnel] stores
    it, [removeAndCloseAllTunnels] calls [end()] on the target socket of
    every tunnel of the table, in table order, and on no other socket, so
    the target side is the side of a tunnel that is ended first; afterwards
    the tunnel table is empty. *)
Theorem removeAndCloseAllTunnels_ends_targets :
  forall (this : ConnectionContextManager) (event : string),
    tunnels_wf (_tunnels this) = true ->
    let r := removeAndCloseAllTunnels event this in
    map Some (socketsEnded (trace r)) =
      map target (JsObject.values (_tunnels this)) /\
    (forall address tunnel,
       JsObject.get address (_tunnels this) = Some tunnel ->
       exists t, target tunnel = Some t /\ In (SocketEnd t) (trace r)) /\
    _tunnels (state r) = JsObject.empty /\
    _connectionContexts (state r) = _connectionContexts this.
Proof.
  intros this event Hwf r. subst r. rewrite removeAndCloseAllTunnels_run.
  unfold state, trace. simpl.
  assert (Hends : forall h : SslTunnelHash,
            tunnels_wf h = true ->
            map Some
              (socketsEnded
                 (flat_map
                    (fun kt => match target (snd kt) with
                               | Some t => [SocketEnd t]
                               | None => []
                               end) h)) =
            map target (JsObject.values h)).
  { induction h as [| [k t] rest IH]; simpl; auto.
    rewrite andb_true_iff. intros [Hhead Hrest].
    destruct (target t) as [s |]; [| discriminate]. simpl.
    now rewrite IH. }
  split; [| split; [| split; reflexivity]].
  - rewrite socketsEnded_app. simpl. rewrite app_nil_r. now apply Hends.
  - intros address tunnel Hget. apply JsObjectFacts.get_In in Hget.
    unfold tunnels_wf in Hwf. rewrite forallb_forall in Hwf.
    specialize (Hwf _ Hget). simpl in Hwf.
    destruct (target tunnel) as [t |] eqn:Et; [| discriminate].
    exists t. split; [reflexivity |].
    apply in_or_app. left. apply in_flat_map.
    exists (address, tunnel). split; auto. simpl. rewrite Et. now left.
Qed.

(** A reset with two open tunnels. *)
Lemma removeAndCloseAllTunnels_ends_targets_witness :
  tunnels_wf (_tunnels Samples.manager2t) = true /\
  socketsEnded (trace (removeAndCloseAllTunnels "reset" Samples.manager2t)) =
    [Samples.server1; Samples.server2] /\
  _tunnels (state (removeAndCloseAllTunnels "reset" Samples.manager2t)) =
    JsObject.empty.
Proof.
  assert (Hwf : tunnels_wf (_tunnels Samples.manager2t) = true) by reflexivity.
  destruct (removeAndCloseAllTunnels_ends_targets Samples.manager2t "reset" Hwf)
    as (Hends & _ & Hempty & _).
  split; [exact Hwf |]. split; [| exact Hempty].
  assert (Hinj : forall l1 l2 : list Socket, map Some l1 = map Some l2 -> l1 = l2).
  { induction l1 as [| a l1 IH]; intros [| b l2] H; try discriminate; auto.
    simpl in H. inversion H. f_equal. now apply IH. }
  apply Hinj. exact Hends.
Defined.

(** ** Every state the manager reaches *)

Lemma forallb_set_present {V : Type} (f : string * V -> bool) k v
  (o : JsObject.t V) :
  f (k, v) = true -> forallb f o = true -> forallb f (JsObject.set k v o) = true.
Proof.
  intros Hv. induction o as [| [k' v'] rest IH]; simpl.
  - now rewrite Hv.
  - rewrite andb_true_iff. intros [Hhead Hrest].
    destruct (String.eqb_spec k' k) as [-> | Hne]; simpl.
    + now rewrite Hv, Hrest.
    + now rewrite Hhead, IH.
Qed.

Lemma setConfigApiConnection_wf (this : ConnectionContextManager) socket flag :
  contexts_wf (_connectionContexts this) = true ->
  contexts_wf
    (_connectionContexts (state (setConfigApiConnection socket flag this))) = true.
Proof.
  intros Hwf. unfold setConfigApiConnection, bind, read, write, ret, state.
  simpl.
  destruct (JsObject.get (getClientAddress socket) (_connectionContexts this))
    as [context |] eqn:E; simpl; auto.
  apply contexts_wf_spec in Hwf. destruct Hwf as [Hnd Hkeyed].
  apply contexts_wf_spec. split.
  - now apply JsObjectFacts.NoDup_keys_set.
  - apply forallb_set_present; auto. simpl.
    apply JsObjectFacts.get_In in E.
    rewrite forallb_forall in Hkeyed. apply (Hkeyed _ E).
Qed.

Lemma discard_result {A : Type} (c : M A) (this : ConnectionContextManager) :
  state ((c ;; ret tt) this) = state (c this) /\
  trace ((c ;; ret tt) this) = trace (c this).
Proof.
  unfold bind, ret, state, trace. destruct (c this) as [[a this1] tr1]. simpl.
  now rewrite app_nil_r.
Qed.

Lemma getAgent_run_frame (this : ConnectionContextManager) env isSSL targetHost :
  state (getAgent env isSSL targetHost this) = this /\
  contextsDestroyed (trace (getAgent env isSSL targetHost this)) = [] /\
  contextsCreated (trace (getAgent env isSSL targetHost this)) = 0 /\
  length (agentsCreated (trace (getAgent env isSSL targetHost this))) = 1.
Proof.
  destruct (getAgent_run this env isSSL targetHost) as [kind ->].
  unfold state, trace. simpl. auto.
Qed.

Lemma perform_wf (call : Call) (this : ConnectionContextManager) :
  contexts_wf (_connectionContexts this) = true ->
  tunnels_wf (_tunnels this) = true ->
  contexts_wf (_connectionContexts (state (perform call this))) = true /\
  tunnels_wf (_tunnels (state (perform call this))) = true.
Proof.
  intros Hc Ht.
  destruct call as [env socket isSSL targetHost | targetHost | socket flag
                   | event | event address | client target | client | event
                   | env isSSL targetHost | socket];
    simpl.
  - pose proof (createConnectionContext_wf this env socket isSSL
                  targetHost Hc) as Hc'.
    destruct (JsObject.get (getClientAddress socket)
                (_connectionContexts this)) eqn:E.
    + unfold bind. rewrite (createConnectionContext_stored _ _ _ _ _ _ E).
      simpl. auto.
    + unfold bind. rewrite (createConnectionContext_fresh _ _ _ _ _ E) in *.
      simpl in *. auto.
  - split; assumption.
  - split; [now apply setConfigApiConnection_wf |].
    unfold setConfigApiConnection, bind, read, write, ret, state. simpl.
    destruct (JsObject.get _ _); assumption.
  - split; [now apply removeAllConnectionContexts_wf |].
    now rewrite (removeAllConnectionContexts_run this event Hc).
  - destruct (discard_result (removeAgent event address) this) as [-> _].
    split; [now apply removeAgent_wf |].
    destruct (JsObject.get address (_connectionContexts this)) eqn:E.
    + now rewrite (removeAgent_tracked this event address _ E).
    + now rewrite (removeAgent_absent this event address E).
  - split; [assumption | now apply addTunnel_wf].
  - split; [| now apply removeTunnel_wf].
    unfold removeTunnel, bind, read, write, ret, state. simpl.
    destruct (JsObject.has _ _); assumption.
  - rewrite removeAndCloseAllTunnels_run. split; [assumption | reflexivity].
  - destruct (discard_result (getAgent env isSSL targetHost) this) as [-> _].
    destruct (getAgent_run_frame this env isSSL targetHost) as [-> _].
    split; assumption.
  - destruct (discard_result (getConnectionContextFromClientSocket socket) this)
      as [-> _].
    rewrite getConnectionContextFromClientSocket_run. split; assumption.
Qed.

(** Both table invariants hold in every state a new manager reaches. *)
Lemma performAll_wf (calls : list Call) :
  forall this : ConnectionContextManager,
    contexts_wf (_connectionContexts this) = true ->
    tunnels_wf (_tunnels this) = true ->
    contexts_wf (_connectionContexts (state (performAll calls this))) = true /\
    tunnels_wf (_tunnels (state (performAll calls this))) = true.
Proof.
  induction calls as [| call rest IH]; intros this Hc Ht.
  - split; assumption.
  - destruct (perform_wf call this Hc Ht) as [Hc1 Ht1].
    specialize (IH (state (perform call this)) Hc1 Ht1).
    simpl. unfold bind.
    destruct (perform call this) as [[u this1] tr1].
    unfold state in IH. simpl in IH.
    destruct (performAll rest this1) as [[u' this2] tr2]. exact IH.
Qed.

Lemma newManager_reaches_wf upstreamProxyManager connectionContext calls :
  let this :=
    state (performAll calls (newManager upstreamProxyManager connectionContext)) in
  contexts_wf (_connectionContexts this) = true /\
  tunnels_wf (_tunnels this) = true.
Proof.
  apply performAll_wf; reflexivity.
Qed.

(** ** HttpMitmProxyFacade *)

Lemma facade_run_budget (ops : list HttpMitmProxyFacade.Op) :
  forall this : HttpMitmProxyFacade.t,
    HttpMitmProxyFacade.closeCalls (snd (HttpMitmProxyFacade.run ops this)) +
    (if HttpMitmProxyFacade._ntlmProxyListening
          (fst (HttpMitmProxyFacade.run ops this)) then 1 else 0) <=
    HttpMitmProxyFacade.successfulListens ops +
    (if HttpMitmProxyFacade._ntlmProxyListening this then 1 else 0).
Proof.
  unfold HttpMitmProxyFacade.closeCalls, HttpMitmProxyFacade.successfulListens.
  induction ops as [| op rest IH]; intros [listening].
  - simpl. lia.
  - simpl.
    destruct (HttpMitmProxyFacade.step op (HttpMitmProxyFacade.mkFacade listening))
      as [this1 calls1] eqn:Estep.
    specialize (IH this1).
    destruct (HttpMitmProxyFacade.run rest this1) as [this2 calls2].
    simpl in *. rewrite filter_app, length_app.
    destruct op as [module | port | [e |] httpPort |], listening;
      inversion Estep; subst; simpl in *; lia.
Qed.

(** C10. [close] is idempotent: a [close] right after a [close] leaves the
    facade as it is and makes no call on the MITM proxy; [close] on a facade
    that is not listening does nothing; the first [close] clears the flag;
    and over any sequence of operations on a new facade the proxy's [close]
    is called at most as often as a [listen] succeeded. *)
Theorem HttpMitmProxyFacade_close_idempotent :
  forall (this : HttpMitmProxyFacade.t) (ops : list HttpMitmProxyFacade.Op),
    HttpMitmProxyFacade.close (fst (HttpMitmProxyFacade.close this)) =
      (fst (HttpMitmProxyFacade.close this), []) /\
    HttpMitmProxyFacade._ntlmProxyListening
      (fst (HttpMitmProxyFacade.close this)) = false /\
    HttpMitmProxyFacade.close (HttpMitmProxyFacade.mkFacade false) =
      (HttpMitmProxyFacade.mkFacade false, []) /\
    HttpMitmProxyFacade.closeCalls (snd (HttpMitmProxyFacade.close this)) <= 1 /\
    HttpMitmProxyFacade.closeCalls
      (snd (HttpMitmProxyFacade.run ops HttpMitmProxyFacade.new)) <=
    HttpMitmProxyFacade.successfulListens ops.
Proof.
  intros [listening] ops. repeat split.
  - destruct listening; reflexivity.
  - destruct listening; reflexivity.
  - destruct listening; simpl; auto.
  - pose proof (facade_run_budget ops HttpMitmProxyFacade.new) as H.
    simpl in H.
    destruct (HttpMitmProxyFacade._ntlmProxyListening
                (fst (HttpMitmProxyFacade.run ops HttpMitmProxyFacade.new)));
      lia.
Qed.

(** Two closes after one successful listen reach the proxy once. *)
Example facade_listen_close_close :
  snd (HttpMitmProxyFacade.run
         [HttpMitmProxyFacade.OpListen 0%N;
          HttpMitmProxyFacade.OpListenCallback None 50002%N;
          HttpMitmProxyFacade.OpClose;
          HttpMitmProxyFacade.OpClose]
         HttpMitmProxyFacade.new) =
  [HttpMitmProxyFacade.ProxyListen "127.0.0.1" 0%N true false;
   HttpMitmProxyFacade.ProxyClose].
Proof. reflexivity. Qed.

(** ** Ports file *)

Section PortsFileFacts.
Import PortsFile.

Variable JSON_parse : string -> JsValue + JsError.
Variable url_parse_string : string -> Completion UrlObject.
Variable portsFile : string.

Lemma complete_url_tests (u : UrlObject) :
  negb (present (protocol u)) || negb (present (hostname u))
    || negb (present (port u)) = false <->
  present (protocol u) = true /\ present (hostname u) = true /\
  present (port u) = true.
Proof.
  destruct (present (protocol u)), (present (hostname u)), (present (port u));
    simpl; intuition discriminate.
Qed.

Lemma member_string_truthy (ports : JsValue) name s :
  member ports name = JString s -> truthy ports = true.
Proof.
  destruct ports; simpl; try discriminate; auto.
Qed.

(** A field is complete when it is truthy and [url.parse] returns parts that
    pass the three tests. *)
Lemma completeUrlField_iff (v : JsValue) :
  completeUrlField url_parse_string v <->
  truthy v = true /\
  exists u, url_parse url_parse_string v = Normal u /\
    negb (present (protocol u)) || negb (present (hostname u))
      || negb (present (port u)) = false.
Proof.
  unfold completeUrlField. split.
  - intros (s & u & -> & Hs & Hparse & Htests). simpl. split.
    + now apply negb_true_iff, String.eqb_neq.
    + exists u. split; [exact Hparse |].
      destruct Htests as (-> & -> & ->). reflexivity.
  - intros (Htruthy & u & Hparse & Htests).
    destruct v; simpl in Hparse; try discriminate.
    exists s, u. split; [reflexivity |]. split.
    + simpl in Htruthy. now apply String.eqb_neq, negb_true_iff.
    + split; [exact Hparse |].
      destruct (present (protocol u)), (present (hostname u)),
        (present (port u)); simpl in Htests; try discriminate; auto.
Qed.

Lemma validatePortsFile_true_iff (ports : JsValue) :
  validatePortsFile url_parse_string ports = Normal true <->
  completeUrlField url_parse_string (member ports "configApiUrl") /\
  completeUrlField url_parse_string (member ports "ntlmProxyUrl").
Proof.
  rewrite !completeUrlField_iff. unfold validatePortsFile. split.
  - destruct (truthy ports); simpl; [| discriminate].
    destruct (truthy (member ports "configApiUrl")); simpl; [| discriminate].
    destruct (truthy (member ports "ntlmProxyUrl")); simpl; [| discriminate].
    destruct (url_parse url_parse_string (member ports "configApiUrl"))
      as [u |]; simpl; [| discriminate].
    destruct (negb (present (protocol u)) || negb (present (hostname u))
              || negb (present (port u))) eqn:E1; [discriminate |].
    destruct (url_parse url_parse_string (member ports "ntlmProxyUrl"))
      as [u' |]; simpl; [| discriminate].
    destruct (negb (present (protocol u')) || negb (present (hostname u'))
              || negb (present (port u'))) eqn:E2; [discriminate |].
    intros _. split; (split; [reflexivity |]); eexists; eauto.
  - intros [(Hc & u & Hpc & Htc) (Hn & u' & Hpn & Htn)].
    assert (Hp : truthy ports = true).
    { destruct ports; simpl in *; try discriminate; auto. }
    rewrite Hp, Hc, Hn. simpl. rewrite Hpc. simpl. rewrite Htc, Hpn. simpl.
    now rewrite Htn.
Qed.

(** [parsePortsFile] hands the parsed ports to its callback, with no error,
    exactly when the file exists, its text parses, and both URL fields are
    complete. *)
Lemma parsePortsFile_succeeds_iff (fs : FileSystem) (ports : JsValue) :
  parsePortsFile JSON_parse url_parse_string portsFile fs =
    Callback (Some ports) None <->
  exists data,
    fs portsFile = Some data /\ JSON_parse data = inl ports /\
    completeUrlField url_parse_string (member ports "configApiUrl") /\
    completeUrlField url_parse_string (member ports "ntlmProxyUrl").
Proof.
  unfold parsePortsFile. split.
  - destruct (fs portsFile) as [data |] eqn:Efs; [| discriminate].
    destruct (JSON_parse data) as [v | err] eqn:Ejson; [| discriminate].
    destruct (validatePortsFile url_parse_string v) as [[|] | e] eqn:Ev;
      try discriminate.
    intros [= ->]. exists data. apply validatePortsFile_true_iff in Ev.
    destruct Ev as [Hc Hn]. repeat split; assumption || reflexivity.
  - intros (data & -> & -> & Hc & Hn).
    assert (Hv : validatePortsFile url_parse_string ports = Normal true)
      by (apply validatePortsFile_true_iff; tauto).
    now rewrite Hv.
Qed.

(** A call of [parsePortsFile] ends in one of three ways. *)
Lemma parsePortsFile_outcomes (fs : FileSystem) :
  (exists ports,
     parsePortsFile JSON_parse url_parse_string portsFile fs =
       Callback (Some ports) None) \/
  (exists err,
     parsePortsFile JSON_parse url_parse_string portsFile fs =
       Callback None (Some err)) \/
  (exists e,
     parsePortsFile JSON_parse url_parse_string portsFile fs = Uncaught e).
Proof.
  unfold parsePortsFile.
  destruct (fs portsFile) as [data |]; [| right; left; eauto].
  destruct (JSON_parse data) as [v | err]; [| right; left; eauto].
  destruct (validatePortsFile url_parse_string v) as [[|] | e] eqn:Ev.
  - left. eauto.
  - right. left. eauto.
  - right. right. eauto.
Qed.

(** A truthy [configApiUrl] that is not a string makes [url.parse] throw;
    nothing catches the exception. *)
Lemma validatePortsFile_non_string (ports : JsValue) :
  truthyNonString (member ports "configApiUrl") ->
  truthy (member ports "ntlmProxyUrl") = true ->
  validatePortsFile url_parse_string ports =
    Throw (InvalidArgType "url" (member ports "configApiUrl")).
Proof.
  intros [Htruthy Hnot] Hn. unfold validatePortsFile.
  assert (Hp : truthy ports = true).
  { destruct ports; simpl in *; try discriminate; auto. }
  rewrite Hp, Htruthy, Hn. simpl.
  destruct (member ports "configApiUrl"); simpl; auto.
  now destruct (Hnot s).
Qed.

End PortsFileFacts.

(** C8, as the code has it: when the ports file exists and holds JSON whose
    [configApiUrl] is the number 1 next to a well-formed [ntlmProxyUrl],
    [url.parse] throws a [TypeError] (ERR_INVALID_ARG_TYPE) inside
    [validatePortsFile]; the exception leaves [parsePortsFile] and the
    callback is never called. *)
Theorem parsePortsFile_number_url_uncaught :
  forall (JSON_parse : string -> PortsFile.JsValue + PortsFile.JsError)
         (url_parse_string : string -> PortsFile.Completion PortsFile.UrlObject)
         (portsFile : string) (fs : PortsFile.FileSystem) (data : string),
    fs portsFile = Some data ->
    JSON_parse data = inl Samples.numberPorts ->
    PortsFile.parsePortsFile JSON_parse url_parse_string portsFile fs =
      PortsFile.Uncaught
        (PortsFile.InvalidArgType "url" (PortsFile.JNumber 1%Q)) /\
    forall ports err,
      PortsFile.parsePortsFile JSON_parse url_parse_string portsFile fs <>
        PortsFile.Callback ports err.
Proof.
  intros JSON_parse url_parse_string portsFile fs data Hfs Hparse.
  assert (H : PortsFile.parsePortsFile JSON_parse url_parse_string portsFile fs =
              PortsFile.Uncaught
                (PortsFile.InvalidArgType "url" (PortsFile.JNumber 1%Q))).
  { unfold PortsFile.parsePortsFile. rewrite Hfs, Hparse. reflexivity. }
  split; [exact H |]. intros ports err. rewrite H. discriminate.
Qed.

Lemma parsePortsFile_number_url_uncaught_witness :
  Samples.diskWith Samples.numberPortsText Samples.portsFile =
    Some Samples.numberPortsText /\
  Samples.JSON_parse Samples.numberPortsText = inl Samples.numberPorts /\
  PortsFile.parsePortsFile Samples.JSON_parse Samples.url_parse_string
    Samples.portsFile (Samples.diskWith Samples.numberPortsText) =
    PortsFile.Uncaught
      (PortsFile.InvalidArgType "url" (PortsFile.JNumber 1%Q)).
Proof.
  split; [reflexivity |]. split; [reflexivity |].
  apply (parsePortsFile_number_url_uncaught Samples.JSON_parse
           Samples.url_parse_string Samples.portsFile
           (Samples.diskWith Samples.numberPortsText) Samples.numberPortsText);
    reflexivity.
Defined.

(** The file [savePortsFile] writes is read back. *)
Example parsePortsFile_good :
  PortsFile.parsePortsFile Samples.JSON_parse Samples.url_parse_string
    Samples.portsFile (Samples.diskWith Samples.goodPortsText) =
  PortsFile.Callback (Some Samples.goodPorts) None.
Proof. reflexivity. Qed.

(** ** Upstream proxy *)

Lemma resolve_plain_without_http_proxy
  (s : UpstreamProxy.Settings) (targetHost : CompleteUrl) :
  UpstreamProxy.HTTP_PROXY s = None ->
  UpstreamProxy.resolve s targetHost false = UpstreamProxy.Direct.
Proof.
  intros H. unfold UpstreamProxy.resolve, UpstreamProxy.relevantProxy.
  rewrite H. now destruct (UpstreamProxy.noProxyBypass s targetHost).
Qed.

(** C7. With HTTPS_PROXY set and HTTP_PROXY unset, whatever NO_PROXY says,
    the route resolved for a plain-HTTP target is direct; the agent
    [getAgent] pins to the connection is a plain [http.Agent], not a proxy
    agent, and however many requests are sent with it the upstream proxy
    sees none of them. *)
Theorem plain_target_direct_with_https_proxy_only :
  forall (this : ConnectionContextManager) (env : ProcessEnv)
         (httpsProxy : CompleteUrl) (bypass : CompleteUrl -> bool)
         (targetHost : CompleteUrl) (requests : nat),
    _upstreamProxyManager this =
      UpstreamProxy.manager
        (UpstreamProxy.mkSettings None (Some httpsProxy) bypass) ->
    UpstreamProxy.resolve
      (UpstreamProxy.mkSettings None (Some httpsProxy) bypass) targetHost false =
      UpstreamProxy.Direct /\
    agentKind (result (getAgent env false targetHost this)) = HttpAgent /\
    UpstreamProxy.upstreamProxyReqCount
      (result (getAgent env false targetHost this)) requests = 0.
Proof.
  intros this env httpsProxy bypass targetHost requests Hupm.
  assert (Hdirect :
            UpstreamProxy.resolve
              (UpstreamProxy.mkSettings None (Some httpsProxy) bypass)
              targetHost false = UpstreamProxy.Direct)
    by (now apply resolve_plain_without_http_proxy).
  assert (Hkind : agentKind (result (getAgent env false targetHost this)) =
                  HttpAgent).
  { unfold getAgent, bind, read, emit, ret, result. simpl.
    rewrite Hupm. simpl. rewrite Hdirect. reflexivity. }
  split; [exact Hdirect |]. split; [exact Hkind |].
  unfold UpstreamProxy.upstreamProxyReqCount, UpstreamProxy.viaUpstreamProxy.
  now rewrite Hkind.
Qed.

Lemma plain_target_direct_with_https_proxy_only_witness :
  _upstreamProxyManager Samples.managerHttpsOnly =
    UpstreamProxy.manager
      (UpstreamProxy.mkSettings None (Some Samples.upstreamUrl)
         (fun _ => false)) /\
  UpstreamProxy.upstreamProxyReqCount
    (result (getAgent Samples.emptyEnv false Samples.localTarget
               Samples.managerHttpsOnly)) 1 = 0.
Proof.
  split; [reflexivity |].
  apply (plain_target_direct_with_https_proxy_only Samples.managerHttpsOnly
           Samples.emptyEnv Samples.upstreamUrl (fun _ => false)
           Samples.localTarget 1).
  reflexivity.
Defined.

(** With the same settings a TLS target does go through the proxy, and with
    HTTP_PROXY set so does a plain one. *)
Example tls_target_via_https_proxy :
  UpstreamProxy.resolve Samples.httpsProxyOnly Samples.intranetTarget true =
    UpstreamProxy.Via Samples.upstreamUrl /\
  UpstreamProxy.upstreamProxyReqCount
    (result (getAgent Samples.emptyEnv false Samples.intranetTarget
               Samples.manager0)) 1 = 1.
Proof. split; reflexivity. Qed.

(** ** Request interceptor *)

(** C2. A request (GET, POST, PUT or DELETE) to a host with a credential,
    when the origin challenges it and answers the Type 1 message with a
    Type 2 challenge, makes the proxy send exactly three requests upstream:
    the request, then the request with Type 1, then the request with
    Type 3, whose response goes to the client.  A request to a host without
    a credential is sent upstream once, and the origin's response, a 401
    included, goes to the client as it is. *)
Theorem handleRequest_leg_count :
  forall (credentialFor : CompleteUrl -> option Interceptor.Credential)
         (origin : Interceptor.Origin) (history : list Interceptor.Request)
         (request : Interceptor.Request),
    (forall credential challenge,
       credentialFor (Interceptor.targetHost request) = Some credential ->
       Interceptor.isChallenge (origin history request) = true ->
       Interceptor.type2Challenge
         (origin (history ++ [request])%list
            (Interceptor.withAuthorization Interceptor.Type1 request)) =
         Some challenge ->
       let type1 := Interceptor.withAuthorization Interceptor.Type1 request in
       let type3 :=
         Interceptor.withAuthorization
           (Interceptor.Type3 credential challenge) request in
       let r := Interceptor.handleRequest credentialFor origin history request in
       length (snd r) = 3 /\
       snd r = [request; type1; type3] /\
       fst r = origin (history ++ [request; type1])%list type3 /\
       Forall (fun sent => Interceptor.method sent = Interceptor.method request)
         (snd r)) /\
    (credentialFor (Interceptor.targetHost request) = None ->
       let r := Interceptor.handleRequest credentialFor origin history request in
       length (snd r) = 1 /\
       snd r = [request] /\
       fst r = origin history request /\
       (Interceptor.status (origin history request) = 401 ->
        Interceptor.status (fst r) = 401)).
Proof.
  intros credentialFor origin history request. split.
  - intros credential challenge Hcred Hchallenge Htype2 type1 type3 r.
    subst r type1 type3. unfold Interceptor.handleRequest.
    rewrite Hcred, Hchallenge, Htype2. simpl.
    repeat split; auto.
  - intros Hnone r. subst r. unfold Interceptor.handleRequest.
    rewrite Hnone. simpl. repeat split; auto.
Qed.

(** The tests' scenario: GET with credentials against an NTLM origin takes
    three requests and ends in 200; without credentials one request and the
    origin's 401. *)
Lemma handleRequest_leg_count_witness :
  Samples.credentialFor (Interceptor.targetHost Samples.getIntranet) =
    Some (Interceptor.Explicit "nisse" "manpower" (Some "mptst") None 2) /\
  Interceptor.isChallenge (Samples.ntlmOrigin [] Samples.getIntranet) = true /\
  length (snd (Interceptor.handleRequest Samples.credentialFor
                 Samples.ntlmOrigin [] Samples.getIntranet)) = 3 /\
  Samples.credentialFor (Interceptor.targetHost Samples.getLocal) = None /\
  length (snd (Interceptor.handleRequest Samples.credentialFor
                 Samples.ntlmOrigin [] Samples.getLocal)) = 1 /\
  Interceptor.status
    (fst (Interceptor.handleRequest Samples.credentialFor
            Samples.ntlmOrigin [] Samples.getLocal)) = 401.
Proof.
  destruct (handleRequest_leg_count Samples.credentialFor Samples.ntlmOrigin []
              Samples.getIntranet) as [Hconfigured _].
  destruct (handleRequest_leg_count Samples.credentialFor Samples.ntlmOrigin []
              Samples.getLocal) as [_ Hunconfigured].
  assert (Hcred : Samples.credentialFor
                    (Interceptor.targetHost Samples.getIntranet) =
                  Some (Interceptor.Explicit "nisse" "manpower"
                          (Some "mptst") None 2)) by reflexivity.
  assert (Hch : Interceptor.isChallenge
                  (Samples.ntlmOrigin [] Samples.getIntranet) = true)
    by reflexivity.
  assert (Hnone : Samples.credentialFor
                    (Interceptor.targetHost Samples.getLocal) = None)
    by reflexivity.
  destruct (Hconfigured _ "challenge" Hcred Hch eq_refl) as (Hlen & _).
  destruct (Hunconfigured Hnone) as (Hlen1 & _ & _ & H401).
  repeat split; auto.
Defined.

(* ================================================================== *)
(** * Further properties of the manager *)
(* ================================================================== *)

Lemma agentsCreated_app tr1 tr2 :
  agentsCreated (tr1 ++ tr2) = (agentsCreated tr1 ++ agentsCreated tr2)%list.
Proof.
  induction tr1 as [| e rest IH]; simpl; auto.
  destruct e; simpl; auto. now rewrite IH.
Qed.

Lemma contextsCreated_app tr1 tr2 :
  contextsCreated (tr1 ++ tr2) = contextsCreated tr1 + contextsCreated tr2.
Proof.
  induction tr1 as [| e rest IH]; simpl; auto.
  destruct e; simpl; auto.
Qed.

Lemma loop_trace_builds_nothing event (properties : ConnectionContextHash) :
  agentsCreated
    (flat_map
       (fun kc => if isConfigApi kc then [] else destroyCalls event (snd kc))
       properties) = [] /\
  contextsCreated
    (flat_map
       (fun kc => if isConfigApi kc then [] else destroyCalls event (snd kc))
       properties) = 0.
Proof.
  induction properties as [| [property context] rest [IHa IHc]]; simpl; auto.
  rewrite agentsCreated_app, contextsCreated_app, IHa, IHc.
  destruct (isConfigApi (property, context)); simpl; auto.
  unfold destroyCalls. destruct (clientSocket context); simpl; auto.
Qed.

(** [removeAllConnectionContexts] on any table: the new table is what the
    loop preserved. *)
Lemma removeAllConnectionContexts_run_any
  (this : ConnectionContextManager) event :
  removeAllConnectionContexts event this =
    (tt,
     set_connectionContexts
       (fold_left
          (fun acc kc =>
             if isConfigApi kc
             then JsObject.set (clientAddress (snd kc)) (snd kc) acc
             else acc)
          (_connectionContexts this) JsObject.empty)
       this,
     List.app
       (flat_map
          (fun kc => if isConfigApi kc then [] else destroyCalls event (snd kc))
          (_connectionContexts this))
       [DebugLog ["Removed all agents due to " ++ event]]).
Proof.
  unfold removeAllConnectionContexts, bind, read, write, emit. simpl.
  now rewrite removeAllConnectionContexts_loop_run.
Qed.

(** ** removeAgent on a tracked address *)

(** X1. [removeAgent] for a tracked address, whatever the context's
    [configApiConnection] flag, removes the close listener from the
    context's socket, then destroys that context and no other, and deletes
    the address from the table; the other addresses, the tunnels and the
    agent counter stay as they were. *)
Theorem removeAgent_removes_tracked :
  forall (this : ConnectionContextManager) (event address : string)
         (context : ConnectionContext),
    JsObject.get address (_connectionContexts this) = Some context ->
    let r := removeAgent event address this in
    JsObject.get address (_connectionContexts (state r)) = None /\
    (forall other, other <> address ->
       JsObject.get other (_connectionContexts (state r)) =
       JsObject.get other (_connectionContexts this)) /\
    contextsDestroyed (trace r) = [context] /\
    In (ContextDestroy context event) (trace r) /\
    (forall socket, clientSocket context = Some socket ->
       exists after,
         trace r =
           SocketRemoveListener socket "close" (socketCloseListener context)
             :: ContextDestroy context event :: after) /\
    _tunnels (state r) = _tunnels this /\
    _agentCount (state r) = _agentCount this.
Proof.
  intros this event address context Hget r. subst r.
  rewrite (removeAgent_tracked this event address context Hget).
  unfold state, trace. simpl.
  split; [apply JsObjectFacts.get_delete_same |].
  split; [intros other Hne; now apply JsObjectFacts.get_delete_other |].
  split; [destruct (clientSocket context); reflexivity |].
  split; [apply in_or_app; right; now left |].
  split; [| split; reflexivity].
  intros socket ->. simpl. eauto.
Qed.

(** The socket of the config API's own connection closes. *)
Lemma removeAgent_removes_tracked_witness :
  JsObject.get "127.0.0.1:50002" (_connectionContexts Samples.manager3) =
    Some (Samples.contextOf Samples.browser2 true) /\
  contextsDestroyed (trace (removeAgent "close" "127.0.0.1:50002" Samples.manager3)) =
    [Samples.contextOf Samples.browser2 true] /\
  JsObject.get "127.0.0.1:50002"
    (_connectionContexts
       (state (removeAgent "close" "127.0.0.1:50002" Samples.manager3))) = None.
Proof.
  assert (H : JsObject.get "127.0.0.1:50002"
                (_connectionContexts Samples.manager3) =
              Some (Samples.contextOf Samples.browser2 true)) by reflexivity.
  destruct (removeAgent_removes_tracked Samples.manager3 "close"
              "127.0.0.1:50002" _ H) as (Hgone & _ & Hdestroyed & _).
  split; [exact H |]. split; [exact Hdestroyed | exact Hgone].
Defined.

(** ** Counters over whole runs *)

Lemma perform_counts (call : Call) (this : ConnectionContextManager) :
  _agentCount (state (perform call this)) +
  (if isGetAgent call then 1 else 0) =
  _agentCount this + length (agentsCreated (trace (perform call this))).
Proof.
  destruct call as [env socket isSSL targetHost | targetHost | socket flag
                   | event | event address | client target | client | event
                   | env isSSL targetHost | socket];
    simpl.
  - unfold bind.
    destruct (JsObject.get (getClientAddress socket)
                (_connectionContexts this)) eqn:E.
    + rewrite (createConnectionContext_stored _ _ _ _ _ _ E).
      unfold state, trace. simpl. lia.
    + rewrite (createConnectionContext_fresh _ _ _ _ _ E).
      unfold state, trace. simpl. lia.
  - unfold state, trace. simpl. lia.
  - unfold setConfigApiConnection, bind, read, write, ret, state, trace. simpl.
    destruct (JsObject.get _ _); simpl; lia.
  - rewrite removeAllConnectionContexts_run_any. unfold state, trace. simpl.
    rewrite agentsCreated_app.
    destruct (loop_trace_builds_nothing event (_connectionContexts this))
      as [-> _]. simpl. lia.
  - destruct (discard_result (removeAgent event address) this) as [-> ->].
    destruct (JsObject.get address (_connectionContexts this)) eqn:E.
    + rewrite (removeAgent_tracked this event address _ E).
      unfold state, trace. simpl. destruct (clientSocket c); simpl; lia.
    + rewrite (removeAgent_absent this event address E).
      unfold state, trace. simpl. lia.
  - unfold state, trace. simpl. lia.
  - unfold removeTunnel, bind, read, write, ret, state, trace. simpl.
    destruct (JsObject.has _ _); simpl; lia.
  - rewrite removeAndCloseAllTunnels_run. unfold state, trace. simpl.
    rewrite agentsCreated_app. simpl. rewrite app_nil_r.
    induction (_tunnels this) as [| [k t] rest IH]; simpl; [lia |].
    rewrite agentsCreated_app.
    destruct (target t); simpl; rewrite ?length_app in *; simpl; lia.
  - destruct (discard_result (getAgent env isSSL targetHost) this) as [-> ->].
    destruct (getAgent_run_frame this env isSSL targetHost)
      as (-> & _ & _ & ->). lia.
  - destruct (discard_result (getConnectionContextFromClientSocket socket) this)
      as [-> ->].
    rewrite getConnectionContextFromClientSocket_run.
    unfold state, trace. simpl. lia.
Qed.

Lemma performAll_step (call : Call) (rest : list Call)
  (this : ConnectionContextManager) :
  state (performAll (call :: rest) this) =
    state (performAll rest (state (perform call this))) /\
  trace (performAll (call :: rest) this) =
    (trace (perform call this) ++
     trace (performAll rest (state (perform call this))))%list.
Proof.
  simpl. unfold bind, state, trace.
  destruct (perform call this) as [[u this1] tr1]. simpl.
  destruct (performAll rest this1) as [[u' this2] tr2]. simpl. auto.
Qed.

(** X2. Over any sequence of calls of the manager's public methods,
    [_agentCount] counts the agents built by [createConnectionContext] and
    by [getUntrackedAgent], one each, and nothing else: an agent built by a
    direct call of [getAgent] is not counted, and no call lowers the
    counter.  So the counter plus the number of direct [getAgent] calls is
    the old counter plus the number of agents constructed. *)
Theorem agentCount_counts_agents_built :
  forall (calls : list Call) (this : ConnectionContextManager),
    _agentCount (state (performAll calls this)) + directGetAgentCalls calls =
    _agentCount this +
    length (agentsCreated (trace (performAll calls this))).
Proof.
  unfold directGetAgentCalls.
  induction calls as [| call rest IH]; intros this.
  - unfold state, trace. simpl. lia.
  - destruct (performAll_step call rest this) as [-> ->].
    rewrite agentsCreated_app, length_app.
    pose proof (IH (state (perform call this))) as Hrest.
    pose proof (perform_counts call this) as Hstep.
    simpl. destruct (isGetAgent call); simpl in *; lia.
Qed.

Lemma length_set_absent {V : Type} k (v : V) (o : JsObject.t V) :
  JsObject.get k o = None -> length (JsObject.set k v o) = S (length o).
Proof.
  intros H. rewrite JsObjectFacts.set_absent by exact H.
  rewrite length_app. simpl. lia.
Qed.

Lemma length_set_present {V : Type} k (v : V) (o : JsObject.t V) :
  JsObject.get k o <> None -> length (JsObject.set k v o) = length o.
Proof.
  induction o as [| [k' v'] rest IH]; simpl; [congruence |].
  destruct (String.eqb k' k); simpl; auto.
Qed.

Lemma length_delete_present {V : Type} k (v : V) (o : JsObject.t V) :
  NoDup (JsObject.keys o) -> JsObject.get k o = Some v ->
  length o = S (length (JsObject.delete k o)).
Proof.
  induction o as [| [k' v'] rest IH]; simpl; [discriminate |].
  intros Hnd. inversion Hnd as [| ? ? Hnotin Hnd']; subst.
  destruct (String.eqb_spec k' k) as [-> | Hne].
  - intros _. f_equal. rewrite JsObjectFacts.delete_absent; auto.
    now apply JsObjectFacts.get_absent_iff.
  - intros Hget. simpl. f_equal. now apply IH.
Qed.

Lemma filter_partition_length {A : Type} (f : A -> bool) (l : list A) :
  length (filter f l) + length (filter (fun x => negb (f x)) l) = length l.
Proof.
  induction l as [| x rest IH]; simpl; auto.
  destruct (f x); simpl; lia.
Qed.

Lemma perform_conserves (call : Call) (this : ConnectionContextManager) :
  contexts_wf (_connectionContexts this) = true ->
  length (_connectionContexts (state (perform call this))) +
  length (contextsDestroyed (trace (perform call this))) =
  length (_connectionContexts this) +
  contextsCreated (trace (perform call this)).
Proof.
  intros Hwf.
  destruct call as [env socket isSSL targetHost | targetHost | socket flag
                   | event | event address | client target | client | event
                   | env isSSL targetHost | socket];
    simpl.
  - unfold bind.
    destruct (JsObject.get (getClientAddress socket)
                (_connectionContexts this)) eqn:E.
    + rewrite (createConnectionContext_stored _ _ _ _ _ _ E).
      unfold state, trace. simpl. lia.
    + rewrite (createConnectionContext_fresh _ _ _ _ _ E).
      unfold state, trace. simpl. rewrite length_set_absent by exact E. lia.
  - unfold state, trace. simpl. lia.
  - unfold setConfigApiConnection, bind, read, write, ret, state, trace. simpl.
    destruct (JsObject.get (getClientAddress socket) (_connectionContexts this))
      eqn:E; simpl; [| lia].
    rewrite length_set_present by congruence. lia.
  - rewrite (removeAllConnectionContexts_run this event Hwf).
    unfold state, trace. simpl.
    rewrite contextsDestroyed_app, contextsCreated_app, contextsDestroyed_loop.
    destruct (loop_trace_builds_nothing event (_connectionContexts this))
      as [_ ->]. simpl.
    rewrite app_nil_r, length_map.
    pose proof (filter_partition_length isConfigApi (_connectionContexts this)).
    lia.
  - destruct (discard_result (removeAgent event address) this) as [-> ->].
    destruct (JsObject.get address (_connectionContexts this)) eqn:E.
    + rewrite (removeAgent_tracked this event address _ E).
      unfold state, trace. simpl.
      apply contexts_wf_spec in Hwf. destruct Hwf as [Hnd _].
      rewrite (length_delete_present address c _ Hnd E).
      destruct (clientSocket c); simpl; lia.
    + rewrite (removeAgent_absent this event address E).
      unfold state, trace. simpl. lia.
  - unfold state, trace. simpl. lia.
  - unfold removeTunnel, bind, read, write, ret, state, trace. simpl.
    destruct (JsObject.has _ _); simpl; lia.
  - rewrite removeAndCloseAllTunnels_run. unfold state, trace. simpl.
    rewrite contextsDestroyed_app, contextsCreated_app. simpl.
    assert (H : forall h : SslTunnelHash,
              contextsDestroyed
                (flat_map (fun kt => match target (snd kt) with
                                     | Some t => [SocketEnd t]
                                     | None => []
                                     end) h) = [] /\
              contextsCreated
                (flat_map (fun kt => match target (snd kt) with
                                     | Some t => [SocketEnd t]
                                     | None => []
                                     end) h) = 0).
    { induction h as [| [k t] rest [IHd IHc]]; simpl; auto.
      rewrite contextsDestroyed_app, contextsCreated_app, IHd, IHc.
      destruct (target t); simpl; auto. }
    destruct (H (_tunnels this)) as [-> ->]. simpl. lia.
  - destruct (discard_result (getAgent env isSSL targetHost) this) as [-> ->].
    destruct (getAgent_run_frame this env isSSL targetHost)
      as (-> & -> & -> & _). simpl. lia.
  - destruct (discard_result (getConnectionContextFromClientSocket socket) this)
      as [-> ->].
    rewrite getConnectionContextFromClientSocket_run.
    unfold state, trace. simpl. lia.
Qed.

Lemma perform_contexts_wf (call : Call) (this : ConnectionContextManager) :
  contexts_wf (_connectionContexts this) = true ->
  contexts_wf (_connectionContexts (state (perform call this))) = true.
Proof.
  intros Hwf.
  destruct call as [env socket isSSL targetHost | targetHost | socket flag
                   | event | event address | client target | client | event
                   | env isSSL targetHost | socket];
    simpl.
  - pose proof (createConnectionContext_wf this env socket isSSL targetHost Hwf)
      as H. unfold bind.
    destruct (createConnectionContext env socket isSSL targetHost this)
      as [[c this1] tr1]. exact H.
  - exact Hwf.
  - now apply setConfigApiConnection_wf.
  - now apply removeAllConnectionContexts_wf.
  - destruct (discard_result (removeAgent event address) this) as [-> _].
    now apply removeAgent_wf.
  - exact Hwf.
  - unfold removeTunnel, bind, read, write, ret, state. simpl.
    destruct (JsObject.has _ _); exact Hwf.
  - rewrite removeAndCloseAllTunnels_run. exact Hwf.
  - destruct (discard_result (getAgent env isSSL targetHost) this) as [-> _].
    now destruct (getAgent_run_frame this env isSSL targetHost) as [-> _].
  - destruct (discard_result (getConnectionContextFromClientSocket socket) this)
      as [-> _].
    now rewrite getConnectionContextFromClientSocket_run.
Qed.

Lemma has_In_keys {V : Type} k (o : JsObject.t V) :
  JsObject.has k o = true <-> In k (JsObject.keys o).
Proof.
  unfold JsObject.has. destruct (JsObject.get k o) eqn:E.
  - split; auto. intros _.
    apply JsObjectFacts.get_In in E.
    change k with (fst (k, v)). now apply in_map.
  - split; [discriminate |]. intros Hin.
    now apply JsObjectFacts.get_absent_iff in E.
Qed.

Lemma leftTable_keys_kept (before after : ConnectionContextHash) :
  (forall k, In k (JsObject.keys before) -> In k (JsObject.keys after)) ->
  leftTable before after = [].
Proof.
  intros Hkept. unfold leftTable.
  induction before as [| [k c] rest IH]; simpl; auto.
  assert (Hk : JsObject.has k after = true).
  { apply has_In_keys. apply Hkept. simpl. now left. }
  rewrite Hk. simpl. apply IH. intros k' Hin. apply Hkept. simpl. now right.
Qed.

Lemma keys_set_kept {V : Type} k (v : V) (o : JsObject.t V) k' :
  In k' (JsObject.keys o) -> In k' (JsObject.keys (JsObject.set k v o)).
Proof.
  intros Hin. apply has_In_keys. apply has_In_keys in Hin.
  unfold JsObject.has in *.
  destruct (String.eqb_spec k' k) as [-> | Hne].
  - now rewrite JsObjectFacts.get_set_same.
  - now rewrite JsObjectFacts.get_set_other.
Qed.

Lemma leftTable_filter (o : ConnectionContextHash) :
  NoDup (JsObject.keys o) ->
  leftTable o (filter isConfigApi o) =
  map snd (filter (fun kc => negb (isConfigApi kc)) o).
Proof.
  intros Hnd. unfold leftTable. f_equal. apply filter_ext_in.
  intros [k c] Hin. simpl. f_equal.
  pose proof (JsObjectFacts.In_get k c o Hnd Hin) as Hget.
  unfold JsObject.has. rewrite (get_filter_configApi o k c Hnd Hget).
  unfold isConfigApi. simpl. now destruct (configApiConnection c).
Qed.

Lemma leftTable_delete (o : ConnectionContextHash) address context :
  NoDup (JsObject.keys o) ->
  JsObject.get address o = Some context ->
  leftTable o (JsObject.delete address o) = [context].
Proof.
  intros Hnd Hget. unfold leftTable.
  assert (Hfilter :
            forall kc, In kc o ->
              negb (JsObject.has (fst kc) (JsObject.delete address o)) =
              String.eqb (fst kc) address).
  { intros [k c] Hin. simpl. unfold JsObject.has.
    destruct (String.eqb_spec k address) as [-> | Hne].
    - now rewrite JsObjectFacts.get_delete_same.
    - rewrite JsObjectFacts.get_delete_other by exact Hne.
      now rewrite (JsObjectFacts.In_get k c o Hnd Hin). }
  rewrite (filter_ext_in _ _ _ Hfilter). clear Hfilter.
  induction o as [| [k c] rest IH]; simpl in *; [discriminate |].
  inversion Hnd as [| ? ? Hnotin Hnd']; subst.
  destruct (String.eqb_spec k address) as [-> | Hne].
  - inversion Hget; subst. simpl. f_equal.
    assert (Hnone : filter (fun kc => String.eqb (fst kc) address) rest = []).
    { clear IH Hget Hnd Hnd'. induction rest as [| [k' c'] rest IH]; simpl; auto.
      destruct (String.eqb_spec k' address) as [-> | Hne'].
      - exfalso. apply Hnotin. simpl. now left.
      - apply IH. intros Hin. apply Hnotin. simpl. now right. }
    now rewrite Hnone.
  - now apply IH.
Qed.

Lemma perform_destroys_left (call : Call) (this : ConnectionContextManager) :
  contexts_wf (_connectionContexts this) = true ->
  contextsDestroyed (trace (perform call this)) =
  leftTable (_connectionContexts this)
    (_connectionContexts (state (perform call this))).
Proof.
  intros Hwf. pose proof Hwf as Hwf'.
  apply contexts_wf_spec in Hwf'. destruct Hwf' as [Hnd _].
  destruct call as [env socket isSSL targetHost | targetHost | socket flag
                   | event | event address | client target | client | event
                   | env isSSL targetHost | socket];
    simpl.
  - destruct (discard_result
                (createConnectionContext env socket isSSL targetHost) this)
      as [-> ->].
    destruct (JsObject.get (getClientAddress socket)
                (_connectionContexts this)) eqn:E.
    + rewrite (createConnectionContext_stored _ _ _ _ _ _ E).
      unfold state, trace. simpl. symmetry. now apply leftTable_keys_kept.
    + rewrite (createConnectionContext_fresh _ _ _ _ _ E).
      unfold state, trace. simpl. symmetry. apply leftTable_keys_kept.
      intros k. apply keys_set_kept.
  - unfold state, trace. simpl. symmetry. now apply leftTable_keys_kept.
  - unfold setConfigApiConnection, bind, read, write, ret, state, trace. simpl.
    destruct (JsObject.get (getClientAddress socket) (_connectionContexts this));
      simpl; symmetry; apply leftTable_keys_kept; auto.
    intros k. apply keys_set_kept.
  - rewrite (removeAllConnectionContexts_run this event Hwf).
    unfold state, trace. simpl.
    rewrite contextsDestroyed_app, contextsDestroyed_loop. simpl.
    rewrite app_nil_r. symmetry. now apply leftTable_filter.
  - destruct (discard_result (removeAgent event address) this) as [-> ->].
    destruct (JsObject.get address (_connectionContexts this)) eqn:E.
    + rewrite (removeAgent_tracked this event address _ E).
      unfold state, trace. simpl.
      rewrite (leftTable_delete _ address c Hnd E).
      destruct (clientSocket c); reflexivity.
    + rewrite (removeAgent_absent this event address E).
      unfold state, trace. simpl. symmetry. now apply leftTable_keys_kept.
  - unfold state, trace. simpl. symmetry. now apply leftTable_keys_kept.
  - unfold removeTunnel, bind, read, write, ret, state, trace. simpl.
    destruct (JsObject.has _ (_tunnels this)); simpl; symmetry;
      now apply leftTable_keys_kept.
  - rewrite removeAndCloseAllTunnels_run. unfold state, trace. simpl.
    rewrite contextsDestroyed_app. simpl. rewrite app_nil_r.
    rewrite (leftTable_keys_kept _ _ (fun k H => H)).
    induction (_tunnels this) as [| [k t] rest IH]; simpl; auto.
    rewrite contextsDestroyed_app, IH. now destruct (target t).
  - destruct (discard_result (getAgent env isSSL targetHost) this) as [-> ->].
    destruct (getAgent_run_frame this env isSSL targetHost) as (-> & -> & _).
    symmetry. now apply leftTable_keys_kept.
  - destruct (discard_result (getConnectionContextFromClientSocket socket) this)
      as [-> ->].
    rewrite getConnectionContextFromClientSocket_run.
    unfold state, trace. simpl. symmetry. now apply leftTable_keys_kept.
Qed.

(** X3. Starting from a table in which every context is filed once under
    its own address, over any sequence of calls the contexts [destroy] is
    called on are, in order, exactly the contexts that leave the table, call
    by call: a tracked context whose address is no longer a key after a
    call has been destroyed by that call, once, and [destroy] is called on
    nothing else.  In numbers: contexts tracked at the end plus [destroy]
    calls equal contexts tracked at the start plus contexts constructed. *)
Theorem contexts_tracked_or_destroyed :
  forall (calls : list Call) (this : ConnectionContextManager),
    contexts_wf (_connectionContexts this) = true ->
    contextsDestroyed (trace (performAll calls this)) =
      contextsUntracked calls this /\
    length (_connectionContexts (state (performAll calls this))) +
    length (contextsDestroyed (trace (performAll calls this))) =
    length (_connectionContexts this) +
    contextsCreated (trace (performAll calls this)).
Proof.
  induction calls as [| call rest IH]; intros this Hwf.
  - unfold state, trace. simpl. split; [reflexivity | lia].
  - destruct (performAll_step call rest this) as [-> ->].
    rewrite contextsDestroyed_app, contextsCreated_app, length_app.
    pose proof (perform_conserves call this Hwf) as Hstep.
    destruct (IH _ (perform_contexts_wf call this Hwf)) as [Hlist Hrest].
    split; [| lia].
    simpl. now rewrite (perform_destroys_left call this Hwf), Hlist.
Qed.

(** Two connections, one closes, then a reset. *)
Lemma contexts_tracked_or_destroyed_witness :
  contexts_wf (_connectionContexts Samples.manager0) = true /\
  contextsDestroyed
    (trace (performAll
              [CreateConnectionContext Samples.emptyEnv Samples.browser1
                 false Samples.localTarget;
               CreateConnectionContext Samples.emptyEnv Samples.browser2
                 true Samples.intranetTarget;
               RemoveAgent "close" "127.0.0.1:50001";
               RemoveAllConnectionContexts "reset"]
              Samples.manager0)) =
  contextsUntracked
    [CreateConnectionContext Samples.emptyEnv Samples.browser1
       false Samples.localTarget;
     CreateConnectionContext Samples.emptyEnv Samples.browser2
       true Samples.intranetTarget;
     RemoveAgent "close" "127.0.0.1:50001";
     RemoveAllConnectionContexts "reset"]
    Samples.manager0.
Proof.
  split; [reflexivity |].
  exact (proj1 (contexts_tracked_or_destroyed
           [CreateConnectionContext Samples.emptyEnv Samples.browser1
              false Samples.localTarget;
            CreateConnectionContext Samples.emptyEnv Samples.browser2
              true Samples.intranetTarget;
            RemoveAgent "close" "127.0.0.1:50001";
            RemoveAllConnectionContexts "reset"]
           Samples.manager0 eq_refl)).
Defined.

(** ** The order of listener removal and destroy, over whole runs *)

Lemma no_destroy_removal tr :
  contextsDestroyed tr = [] -> removal_just_before_destroy tr.
Proof.
  intros Hnone before context event after Heq. subst tr.
  rewrite contextsDestroyed_app in Hnone. simpl in Hnone.
  now destruct (contextsDestroyed before).
Qed.

Lemma removal_app tr1 tr2 :
  removal_just_before_destroy tr1 -> removal_just_before_destroy tr2 ->
  removal_just_before_destroy (tr1 ++ tr2).
Proof.
  intros H1 H2 before context event after Heq socket Hsocket removal.
  apply app_eq_app in Heq. destruct Heq as (l & [[Htr1 Hafter] | [Hbefore Htr2]]).
  - destruct l as [| e l'].
    + simpl in Hafter. rewrite app_nil_r in Htr1. subst before.
      destruct (H2 [] context event after (eq_sym Hafter) socket Hsocket)
        as (earlier & [Hnil | (line & Hnil)]);
        destruct earlier; discriminate.
    + simpl in Hafter. inversion Hafter; subst e after.
      apply (H1 before context event l' Htr1 socket Hsocket).
  - destruct (H2 l context event after Htr2 socket Hsocket)
      as (earlier & [Hl | (line & Hl)]); subst l before;
      exists (tr1 ++ earlier)%list.
    + left. apply app_assoc.
    + right. exists line. apply app_assoc.
Qed.

Lemma removal_destroyCalls event context :
  removal_just_before_destroy (destroyCalls event context).
Proof.
  intros before c e after Heq socket Hsocket removal. subst removal.
  unfold destroyCalls in Heq.
  destruct (clientSocket context) as [s |] eqn:Es; simpl in Heq.
  - destruct before as [| e1 before]; simpl in Heq; [discriminate |].
    destruct before as [| e2 before]; simpl in Heq; [discriminate |].
    destruct before as [| e3 before]; simpl in Heq.
    + inversion Heq; subst. exists []. right. eexists.
      simpl. rewrite Es in Hsocket. inversion Hsocket; subst. reflexivity.
    + inversion Heq as [[H1 H2 H3 H4]]. destruct before; discriminate.
  - destruct before as [| e1 before]; simpl in Heq; [discriminate |].
    destruct before as [| e2 before]; simpl in Heq.
    + inversion Heq; subst. congruence.
    + inversion Heq as [[H1 H2 H3]]. destruct before; discriminate.
Qed.

Lemma removal_loop event (properties : ConnectionContextHash) :
  removal_just_before_destroy
    (flat_map
       (fun kc => if isConfigApi kc then [] else destroyCalls event (snd kc))
       properties).
Proof.
  induction properties as [| [property context] rest IH]; simpl.
  - now apply no_destroy_removal.
  - apply removal_app; auto.
    destruct (isConfigApi (property, context)).
    + now apply no_destroy_removal.
    + apply removal_destroyCalls.
Qed.

Lemma removal_perform (call : Call) (this : ConnectionContextManager) :
  removal_just_before_destroy (trace (perform call this)).
Proof.
  destruct call as [env socket isSSL targetHost | targetHost | socket flag
                   | event | event address | client target | client | event
                   | env isSSL targetHost | socket];
    simpl.
  - apply no_destroy_removal. unfold bind.
    destruct (JsObject.get (getClientAddress socket)
                (_connectionContexts this)) eqn:E.
    + now rewrite (createConnectionContext_stored _ _ _ _ _ _ E).
    + now rewrite (createConnectionContext_fresh _ _ _ _ _ E).
  - now apply no_destroy_removal.
  - apply no_destroy_removal.
    unfold setConfigApiConnection, bind, read, write, ret, trace. simpl.
    now destruct (JsObject.get _ _).
  - rewrite removeAllConnectionContexts_run_any. unfold trace. simpl.
    apply removal_app; [apply removal_loop | now apply no_destroy_removal].
  - destruct (discard_result (removeAgent event address) this) as [_ ->].
    destruct (JsObject.get address (_connectionContexts this)) as [c |] eqn:E.
    + rewrite (removeAgent_tracked this event address _ E). unfold trace. simpl.
      intros before c' e after Heq socket Hsocket removal. subst removal.
      destruct (clientSocket c) as [s |] eqn:Es; simpl in Heq.
      * destruct before as [| e1 before]; simpl in Heq; [discriminate |].
        destruct before as [| e2 before]; simpl in Heq.
        -- inversion Heq; subst. exists []. left. simpl.
           rewrite Es in Hsocket. inversion Hsocket; subst. reflexivity.
        -- inversion Heq as [[H1 H2 H3]].
           destruct before as [| e3 before]; simpl in H3; [discriminate |].
           inversion H3. destruct before; discriminate.
      * destruct before as [| e1 before]; simpl in Heq.
        -- inversion Heq; subst. congruence.
        -- inversion Heq as [[H1 H2]].
           destruct before as [| e2 before]; simpl in H2; [discriminate |].
           inversion H2. destruct before; discriminate.
    + rewrite (removeAgent_absent this event address E).
      now apply no_destroy_removal.
  - now apply no_destroy_removal.
  - apply no_destroy_removal.
    unfold removeTunnel, bind, read, write, ret, trace. simpl.
    now destruct (JsObject.has _ _).
  - apply no_destroy_removal. rewrite removeAndCloseAllTunnels_run.
    unfold trace. simpl. rewrite contextsDestroyed_app. simpl.
    rewrite app_nil_r.
    induction (_tunnels this) as [| [k t] rest IH]; simpl; auto.
    rewrite contextsDestroyed_app, IH. now destruct (target t).
  - apply no_destroy_removal.
    destruct (discard_result (getAgent env isSSL targetHost) this) as [_ ->].
    now destruct (getAgent_run_frame this env isSSL targetHost) as (_ & -> & _).
  - apply no_destroy_removal.
    destruct (discard_result (getConnectionContextFromClientSocket socket) this)
      as [_ ->].
    now rewrite getConnectionContextFromClientSocket_run.
Qed.

(** X4. In the trace of any sequence of calls on a manager, each [destroy]
    of a context that has a client socket comes right after the removal of
    the context's close listener from that socket, with at most the debug
    line of the reset loop in between: the manager never destroys a context
    whose close listener it has left registered. *)
Theorem destroy_follows_listener_removal :
  forall (calls : list Call) (this : ConnectionContextManager),
    removal_just_before_destroy (trace (performAll calls this)).
Proof.
  induction calls as [| call rest IH]; intros this.
  - now apply no_destroy_removal.
  - destruct (performAll_step call rest this) as [_ ->].
    apply removal_app; [apply removal_perform | apply IH].
Qed.

(** ** Client addresses *)

Lemma decimal_no_colon (d : Decimal.uint) :
  no_colon (NilEmpty.string_of_uint d) = true.
Proof.
  induction d; simpl; auto.
Qed.

Lemma colon_inside (a b : string) :
  no_colon (a ++ String ":"%char b) = false.
Proof.
  induction a as [| c a IH]; simpl in *; auto.
  rewrite IH. apply andb_false_r.
Qed.

Lemma split_at_last_colon (a b d1 d2 : string) :
  no_colon d1 = true -> no_colon d2 = true ->
  a ++ ":" ++ d1 = b ++ ":" ++ d2 -> a = b /\ d1 = d2.
Proof.
  intros H1 H2. revert b.
  induction a as [| c a IH]; intros [| c' b] Heq; simpl in Heq.
  - inversion Heq. auto.
  - inversion Heq as [[Hc Hd]]. rewrite Hd, colon_inside in H1. discriminate.
  - inversion Heq as [[Hc Hd]]. rewrite <- Hd, colon_inside in H2. discriminate.
  - inversion Heq as [[Hc Hrest]]. destruct (IH b Hrest) as [-> ->]. auto.
Qed.

(** A client address is never a name inherited from [Object.prototype]:
    for the keys [createConnectionContext], the lookup and the tunnel
    methods use, [in] is own-key membership. *)
Lemma getClientAddress_not_inherited (clientSocket : Socket) :
  JsObject.inherited (getClientAddress clientSocket) = false.
Proof.
  assert (Hcolon : no_colon (getClientAddress clientSocket) = false)
    by apply colon_inside.
  destruct (JsObject.inherited (getClientAddress clientSocket)) eqn:E; auto.
  unfold JsObject.inherited in E. apply existsb_exists in E.
  destruct E as (name & Hin & Heq). apply String.eqb_eq in Heq.
  rewrite Heq in Hcolon. simpl in Hin.
  repeat (destruct Hin as [<- | Hin]; [discriminate Hcolon |]).
  contradiction.
Qed.

Lemma isIn_client_address {V : Type} (clientSocket : Socket) (o : JsObject.t V) :
  JsObject.isIn (getClientAddress clientSocket) o =
  JsObject.has (getClientAddress clientSocket) o.
Proof.
  unfold JsObject.isIn. rewrite getClientAddress_not_inherited.
  apply orb_false_r.
Qed.

(** X5. Two connected sockets have the same client address only if they
    have the same remote address and the same remote port: the key splits
    back at its last colon, also for IPv6 addresses, which contain colons
    themselves.  So connections from different peers never share a
    context. *)
Theorem getClientAddress_injective :
  forall (s1 s2 : Socket) (a1 a2 : string) (p1 p2 : N),
    remoteAddress s1 = Some a1 -> remotePort s1 = Some p1 ->
    remoteAddress s2 = Some a2 -> remotePort s2 = Some p2 ->
    getClientAddress s1 = getClientAddress s2 ->
    a1 = a2 /\ p1 = p2.
Proof.
  intros s1 s2 a1 a2 p1 p2 Ha1 Hp1 Ha2 Hp2. unfold getClientAddress.
  rewrite Ha1, Hp1, Ha2, Hp2. simpl. intros Heq.
  apply split_at_last_colon in Heq; try apply decimal_no_colon.
  destruct Heq as [-> Hd]. split; auto.
  apply DecimalN.Unsigned.to_uint_inj.
  assert (H : NilEmpty.uint_of_string (NilEmpty.string_of_uint (N.to_uint p1)) =
              NilEmpty.uint_of_string (NilEmpty.string_of_uint (N.to_uint p2)))
    by now rewrite Hd.
  rewrite !NilEmpty.usu in H. now inversion H.
Qed.

Lemma getClientAddress_injective_witness :
  getClientAddress (mkSocket 7 (Some "::1") (Some 50001%N)) =
  getClientAddress (mkSocket 8 (Some "::1") (Some 50001%N)) /\
  "::1" = "::1" /\ 50001%N = 50001%N.
Proof.
  split; [reflexivity |].
  apply (getClientAddress_injective
           (mkSocket 7 (Some "::1") (Some 50001%N))
           (mkSocket 8 (Some "::1") (Some 50001%N))
           "::1" "::1" 50001%N 50001%N); reflexivity.
Defined.

(** ** A connection that closes and comes back *)

(** X6. After a context was created for a socket and the socket closed
    ([removeAgentOnClose]), the context has been destroyed, and the next
    [createConnectionContext] from the same client address does not find
    the old context: it builds a new agent for its own target and files a
    new context on the new socket. *)
Theorem reconnect_gets_new_context :
  forall (this : ConnectionContextManager) (env env' : ProcessEnv)
         (socket socket' : Socket) (isSSL isSSL' : bool)
         (targetHost targetHost' : CompleteUrl),
    getClientAddress socket' = getClientAddress socket ->
    let r1 := createConnectionContext env socket isSSL targetHost this in
    let r2 := removeAgentOnClose (getClientAddress socket) (state r1) in
    let r3 :=
      createConnectionContext env' socket' isSSL' targetHost' (state r2) in
    contextsDestroyed (trace r2) = [result r1] /\
    result r3 = createdContext (state r2) env' socket' isSSL' targetHost' /\
    agentsCreated (trace r3) =
      [result (getAgent env' isSSL' targetHost' (state r2))] /\
    JsObject.get (getClientAddress socket) (_connectionContexts (state r3)) =
      Some (result r3).
Proof.
  intros this env env' socket socket' isSSL isSSL' targetHost targetHost'
         Haddr r1 r2 r3.
  assert (Hstored : JsObject.get (getClientAddress socket)
                      (_connectionContexts (state r1)) = Some (result r1)).
  { subst r1.
    destruct (JsObject.get (getClientAddress socket) (_connectionContexts this))
      eqn:E.
    - now rewrite (createConnectionContext_stored _ _ _ _ _ _ E).
    - rewrite (createConnectionContext_fresh _ _ _ _ _ E). unfold state. simpl.
      apply JsObjectFacts.get_set_same. }
  assert (Hgone : JsObject.get (getClientAddress socket')
                    (_connectionContexts (state r2)) = None).
  { rewrite Haddr. subst r2. apply removeAgent_forgets. }
  split.
  - subst r2. unfold removeAgentOnClose.
    rewrite (removeAgent_tracked _ "close" _ _ Hstored). unfold trace. simpl.
    destruct (clientSocket (result r1)); reflexivity.
  - subst r3. rewrite (createConnectionContext_fresh _ _ _ _ _ Hgone).
    unfold result, state, trace. simpl.
    split; [reflexivity |]. split; [reflexivity |].
    rewrite <- Haddr. apply JsObjectFacts.get_set_same.
Qed.

Lemma reconnect_gets_new_context_witness :
  getClientAddress Samples.browser1 = getClientAddress Samples.browser1 /\
  agentsCreated
    (trace
       (createConnectionContext Samples.emptyEnv Samples.browser1 true
          Samples.intranetTarget
          (state
             (removeAgentOnClose (getClientAddress Samples.browser1)
                (state Samples.firstRequest))))) =
  [result
     (getAgent Samples.emptyEnv true Samples.intranetTarget
        (state
           (removeAgentOnClose (getClientAddress Samples.browser1)
              (state Samples.firstRequest))))].
Proof.
  split; [reflexivity |].
  destruct (reconnect_gets_new_context Samples.manager0 Samples.emptyEnv
              Samples.emptyEnv Samples.browser1 Samples.browser1 false true
              Samples.localTarget Samples.intranetTarget eq_refl)
    as (_ & _ & Hagents & _).
  exact Hagents.
Defined.

(** ** Untracked agents *)

(** X7. [getUntrackedAgent] builds a plain [http.Agent] without options and
    files it nowhere: both tables stay as they were, so a reset right after
    it makes exactly the calls it would have made before, and destroys
    nothing more. *)
Theorem getUntrackedAgent_is_untracked :
  forall (this : ConnectionContextManager) (targetHost : CompleteUrl)
         (event : string),
    let r := getUntrackedAgent targetHost this in
    result r = mkAgent HttpAgent None /\
    agentsCreated (trace r) = [result r] /\
    _connectionContexts (state r) = _connectionContexts this /\
    _tunnels (state r) = _tunnels this /\
    trace (removeAllConnectionContexts event (state r)) =
      trace (removeAllConnectionContexts event this) /\
    trace (removeAndCloseAllTunnels event (state r)) =
      trace (removeAndCloseAllTunnels event this).
Proof.
  intros this targetHost event r. subst r.
  unfold getUntrackedAgent, bind, emit, write, ret, result, state. simpl.
  repeat split.
  - now rewrite !removeAllConnectionContexts_run_any.
  - now rewrite !removeAndCloseAllTunnels_run.
Qed.

(** ** Tunnels *)

Lemma has_get {V : Type} k (o : JsObject.t V) :
  JsObject.has k o = true <-> JsObject.get k o <> None.
Proof.
  unfold JsObject.has. destruct (JsObject.get k o); split;
    congruence || discriminate.
Qed.

Lemma removeTunnel_run (this : ConnectionContextManager) client :
  removeTunnel client this =
    (tt,
     set_tunnels (JsObject.delete (getClientAddress client) (_tunnels this)) this,
     []).
Proof.
  unfold removeTunnel, bind, read, write, ret. simpl.
  destruct (JsObject.has (getClientAddress client) (_tunnels this)) eqn:E.
  - reflexivity.
  - simpl. rewrite JsObjectFacts.delete_absent.
    + now destruct this.
    + unfold JsObject.has in E. now destruct (JsObject.get _ _).
Qed.

(** X8. [addTunnel] files the tunnel under the client's address, replacing
    a tunnel already there and leaving the other addresses alone;
    [removeTunnel] for a client of that address then empties the slot again.
    Neither calls [end()] or anything else on a socket, and neither touches
    the context table. *)
Theorem addTunnel_removeTunnel_roundtrip :
  forall (this : ConnectionContextManager) (client client' target : Socket),
    getClientAddress client' = getClientAddress client ->
    let r := addTunnel client target this in
    let r' := removeTunnel client' (state r) in
    JsObject.get (getClientAddress client) (_tunnels (state r)) =
      Some (mkSslTunnel client (Some target)) /\
    (forall other, other <> getClientAddress client ->
       JsObject.get other (_tunnels (state r)) =
       JsObject.get other (_tunnels this) /\
       JsObject.get other (_tunnels (state r')) =
       JsObject.get other (_tunnels this)) /\
    JsObject.get (getClientAddress client) (_tunnels (state r')) = None /\
    trace r = [] /\ trace r' = [] /\
    _connectionContexts (state r') = _connectionContexts this.
Proof.
  intros this client client' target Haddr r r'. subst r r'.
  rewrite removeTunnel_run, Haddr.
  unfold addTunnel, write, state, trace. simpl.
  split; [apply JsObjectFacts.get_set_same |].
  split; [| split; [apply JsObjectFacts.get_delete_same | auto]].
  intros other Hne. split.
  - now apply JsObjectFacts.get_set_other.
  - rewrite JsObjectFacts.get_delete_other by exact Hne.
    now apply JsObjectFacts.get_set_other.
Qed.

Lemma addTunnel_removeTunnel_roundtrip_witness :
  getClientAddress Samples.browser1 = getClientAddress Samples.browser1 /\
  JsObject.get (getClientAddress Samples.browser1)
    (_tunnels
       (state (removeTunnel Samples.browser1
                 (state (addTunnel Samples.browser1 Samples.server1
                           Samples.manager2t))))) = None.
Proof.
  split; [reflexivity |].
  destruct (addTunnel_removeTunnel_roundtrip Samples.manager2t
              Samples.browser1 Samples.browser1 Samples.server1 eq_refl)
    as (_ & _ & Hnone & _).
  exact Hnone.
Defined.

Lemma In_delete {V : Type} k k' (v : V) (o : JsObject.t V) :
  In (k', v) (JsObject.delete k o) -> k' <> k /\ In (k', v) o.
Proof.
  induction o as [| [k0 v0] rest IH]; simpl; [tauto |].
  destruct (String.eqb_spec k0 k) as [-> | Hne]; simpl.
  - intros H. destruct (IH H). auto.
  - intros [[= -> ->] | H]; auto. destruct (IH H). auto.
Qed.

(** X9. A reset ends only tunnels that are still filed: after
    [removeTunnel] for a client, every socket that
    [removeAndCloseAllTunnels] ends is the target of a tunnel filed under
    another address; and a tunnel just added by [addTunnel] has its target
    ended by the reset. *)
Theorem reset_ends_only_filed_tunnels :
  forall (this : ConnectionContextManager) (client targetSocket : Socket)
         (event : string),
    (forall s,
       In (SocketEnd s)
          (trace (removeAndCloseAllTunnels event
                    (state (removeTunnel client this)))) ->
       exists address tunnel,
         address <> getClientAddress client /\
         In (address, tunnel) (_tunnels this) /\
         target tunnel = Some s) /\
    In (SocketEnd targetSocket)
       (trace (removeAndCloseAllTunnels event
                 (state (addTunnel client targetSocket this)))).
Proof.
  intros this client targetSocket event. split.
  - intros s. rewrite removeAndCloseAllTunnels_run, removeTunnel_run.
    unfold state, trace. simpl. intros Hin.
    apply in_app_or in Hin. destruct Hin as [Hin | [Hin | []]];
      [| discriminate].
    apply in_flat_map in Hin. destruct Hin as ([address tunnel] & Hfiled & Hs).
    apply In_delete in Hfiled. destruct Hfiled as [Hne Hfiled].
    exists address, tunnel. split; [exact Hne |]. split; [exact Hfiled |].
    simpl in Hs. destruct (target tunnel) as [t |]; [| contradiction].
    destruct Hs as [[= ->] | []]. reflexivity.
  - rewrite removeAndCloseAllTunnels_run.
    unfold addTunnel, write, state, trace. simpl.
    apply in_or_app. left. apply in_flat_map.
    exists (getClientAddress client, mkSslTunnel client (Some targetSocket)).
    split.
    + apply JsObjectFacts.get_In. apply JsObjectFacts.get_set_same.
    + simpl. now left.
Qed.

(** ** A second reset *)

Lemma filter_filter_same {A : Type} (f : A -> bool) (l : list A) :
  filter f (filter f l) = filter f l.
Proof.
  induction l as [| x rest IH]; simpl; auto.
  destruct (f x) eqn:E; simpl; rewrite ?E, IH; auto.
Qed.

Lemma filter_filter_neg {A : Type} (f : A -> bool) (l : list A) :
  filter (fun x => negb (f x)) (filter f l) = [].
Proof.
  induction l as [| x rest IH]; simpl; auto.
  destruct (f x) eqn:E; simpl; rewrite ?E; auto.
Qed.

(** X10. A reset is idempotent: after [removeAllConnectionContexts] and
    [removeAndCloseAllTunnels], running both again destroys no context and
    ends no socket, and leaves the table of config API contexts and the
    empty tunnel table as they are. *)
Theorem second_reset_does_nothing :
  forall (this : ConnectionContextManager) (event event' : string),
    contexts_wf (_connectionContexts this) = true ->
    let once :=
      state (removeAndCloseAllTunnels event
               (state (removeAllConnectionContexts event this))) in
    let r1 := removeAllConnectionContexts event' once in
    let r2 := removeAndCloseAllTunnels event' (state r1) in
    contextsDestroyed (trace r1) = [] /\
    socketsEnded (trace r2) = [] /\
    _connectionContexts (state r2) = _connectionContexts once /\
    _tunnels (state r2) = _tunnels once.
Proof.
  intros this event event' Hwf once r1 r2.
  assert (Honce : once =
            set_tunnels JsObject.empty
              (set_connectionContexts
                 (filter isConfigApi (_connectionContexts this)) this)).
  { subst once. rewrite (removeAllConnectionContexts_run this event Hwf).
    now rewrite removeAndCloseAllTunnels_run. }
  assert (Hwf' : contexts_wf (_connectionContexts once) = true).
  { rewrite Honce. simpl.
    pose proof (removeAllConnectionContexts_wf this event Hwf) as H.
    now rewrite (removeAllConnectionContexts_run this event Hwf) in H. }
  subst r2 r1.
  rewrite (removeAllConnectionContexts_run once event' Hwf').
  rewrite removeAndCloseAllTunnels_run. unfold state, trace. simpl.
  rewrite Honce. simpl.
  rewrite contextsDestroyed_app, contextsDestroyed_loop. simpl.
  unfold isConfigApi at 1.
  rewrite (filter_filter_neg isConfigApi), filter_filter_same.
  auto.
Qed.

Lemma second_reset_does_nothing_witness :
  contexts_wf (_connectionContexts Samples.manager3) = true /\
  contextsDestroyed
    (trace
       (removeAllConnectionContexts "reset"
          (state (removeAndCloseAllTunnels "reset"
                    (state (removeAllConnectionContexts "reset"
                              Samples.manager3)))))) = [].
Proof.
  split; [reflexivity |].
  destruct (second_reset_does_nothing Samples.manager3 "reset" "reset" eq_refl)
    as (Hnone & _).
  exact Hnone.
Defined.

(* ================================================================== *)
(** * Further properties of the facade and the ports file *)
(* ================================================================== *)

Lemma facade_run_app (ops1 ops2 : list HttpMitmProxyFacade.Op) :
  forall this : HttpMitmProxyFacade.t,
    HttpMitmProxyFacade.run (ops1 ++ ops2) this =
      (fst (HttpMitmProxyFacade.run ops2
              (fst (HttpMitmProxyFacade.run ops1 this))),
       (snd (HttpMitmProxyFacade.run ops1 this) ++
        snd (HttpMitmProxyFacade.run ops2
               (fst (HttpMitmProxyFacade.run ops1 this))))%list).
Proof.
  induction ops1 as [| op rest IH]; intros this; simpl.
  - now destruct (HttpMitmProxyFacade.run ops2 this).
  - destruct (HttpMitmProxyFacade.step op this) as [this1 calls1].
    rewrite IH.
    destruct (HttpMitmProxyFacade.run rest this1) as [this2 calls2]. simpl.
    now rewrite app_assoc.
Qed.

(** A [close] after any history. *)
Lemma close_after_run :
  forall (ops : list HttpMitmProxyFacade.Op) (this : HttpMitmProxyFacade.t),
    let before := HttpMitmProxyFacade.run ops this in
    let r := HttpMitmProxyFacade.run (ops ++ [HttpMitmProxyFacade.OpClose]) this in
    HttpMitmProxyFacade._ntlmProxyListening (fst r) = false /\
    snd r =
      (snd before ++
       if HttpMitmProxyFacade._ntlmProxyListening (fst before)
       then [HttpMitmProxyFacade.ProxyClose] else [])%list.
Proof.
  intros ops this before r. subst before r. rewrite facade_run_app. simpl.
  destruct (HttpMitmProxyFacade.run ops this) as [[listening] calls]. simpl.
  destruct listening; simpl; auto.
Qed.

(** The flag after a history, from the history alone. *)
Lemma listening_by_history (ops : list HttpMitmProxyFacade.Op) :
  forall this : HttpMitmProxyFacade.t,
    HttpMitmProxyFacade._ntlmProxyListening
      (fst (HttpMitmProxyFacade.run ops this)) =
    HttpMitmProxyFacade.listenedAndNotClosed ops ||
    (HttpMitmProxyFacade._ntlmProxyListening this &&
     negb (existsb HttpMitmProxyFacade.isCloseOp ops)).
Proof.
  induction ops as [| op rest IH]; intros [listening].
  - simpl. now rewrite andb_true_r.
  - simpl.
    destruct (HttpMitmProxyFacade.step op (HttpMitmProxyFacade.mkFacade listening))
      as [this1 calls1] eqn:Estep.
    specialize (IH this1).
    destruct (HttpMitmProxyFacade.run rest this1) as [this2 calls2].
    simpl in *. rewrite IH. clear IH.
    destruct op as [module | port | [e |] httpPort |], listening;
      inversion Estep; subst; simpl;
      destruct (HttpMitmProxyFacade.listenedAndNotClosed rest),
               (existsb HttpMitmProxyFacade.isCloseOp rest); reflexivity.
Qed.

(** X11. On a new facade, after any history of [use], [listen], listen
    callbacks and [close], the facade is listening exactly when some
    [listen] callback has reported success and no [close] was called since;
    a [close] then reaches the MITM proxy exactly in that case, and leaves
    the facade not listening.  So a [close] after a [listen] that failed,
    or whose callback has not run yet, does not reach the proxy. *)
Theorem close_reaches_proxy_after_successful_listen :
  forall (ops : list HttpMitmProxyFacade.Op),
    let before := HttpMitmProxyFacade.run ops HttpMitmProxyFacade.new in
    let r :=
      HttpMitmProxyFacade.run (ops ++ [HttpMitmProxyFacade.OpClose])
        HttpMitmProxyFacade.new in
    HttpMitmProxyFacade._ntlmProxyListening (fst before) =
      HttpMitmProxyFacade.listenedAndNotClosed ops /\
    HttpMitmProxyFacade._ntlmProxyListening (fst r) = false /\
    snd r =
      (snd before ++
       if HttpMitmProxyFacade.listenedAndNotClosed ops
       then [HttpMitmProxyFacade.ProxyClose] else [])%list.
Proof.
  intros ops before r.
  assert (Hflag : HttpMitmProxyFacade._ntlmProxyListening (fst before) =
                  HttpMitmProxyFacade.listenedAndNotClosed ops).
  { subst before. rewrite listening_by_history. simpl.
    apply orb_false_r. }
  destruct (close_after_run ops HttpMitmProxyFacade.new) as [Hoff Hcalls].
  split; [exact Hflag |]. split; [exact Hoff |].
  subst r before. rewrite Hcalls, Hflag. reflexivity.
Qed.

(** A listen that fails, then close: the proxy's close is not called. *)
Example close_after_failed_listen :
  snd (HttpMitmProxyFacade.run
         [HttpMitmProxyFacade.OpListen 50002%N;
          HttpMitmProxyFacade.OpListenCallback (Some "EADDRINUSE") 0%N;
          HttpMitmProxyFacade.OpClose]
         HttpMitmProxyFacade.new) =
  [HttpMitmProxyFacade.ProxyListen "127.0.0.1" 50002%N true false].
Proof. reflexivity. Qed.

Lemma url_tests_pass (u : PortsFile.UrlObject) :
  negb (PortsFile.present (PortsFile.protocol u))
    || negb (PortsFile.present (PortsFile.hostname u))
    || negb (PortsFile.present (PortsFile.port u)) = false <->
  PortsFile.present (PortsFile.protocol u) = true /\
  PortsFile.present (PortsFile.hostname u) = true /\
  PortsFile.present (PortsFile.port u) = true.
Proof.
  rewrite !orb_false_iff, !negb_false_iff. tauto.
Qed.

Section PortsFileMore.
Import PortsFile.

Variable JSON_parse : string -> JsValue + JsError.
Variable JSON_stringify : JsValue -> string.
Variable url_parse_string : string -> Completion UrlObject.
Variable portsFile : string.

Lemma member_truthy_object (ports : JsValue) name :
  truthy (member ports name) = true -> truthy ports = true.
Proof.
  destruct ports; simpl; try discriminate; auto.
Qed.

(** X12. [validatePortsFile] throws exactly when a call of [url.parse] in
    it throws, and throws that exception: both fields are truthy and
    [url.parse] throws on [configApiUrl], or [configApiUrl] is a complete
    URL and [url.parse] throws on [ntlmProxyUrl].  [url.parse] throws on
    every value that is not a string (ERR_INVALID_ARG_TYPE), and on the
    strings Node's parser rejects. *)
Theorem validatePortsFile_throws_iff :
  forall (ports : JsValue) (e : JsError),
    (validatePortsFile url_parse_string ports = Throw e <->
     truthy (member ports "configApiUrl") = true /\
     truthy (member ports "ntlmProxyUrl") = true /\
     (url_parse url_parse_string (member ports "configApiUrl") = Throw e \/
      (completeUrlField url_parse_string (member ports "configApiUrl") /\
       url_parse url_parse_string (member ports "ntlmProxyUrl") = Throw e))) /\
    (forall v, (forall s, v <> JString s) ->
       url_parse url_parse_string v = Throw (InvalidArgType "url" v)).
Proof.
  intros ports e. split.
  - rewrite completeUrlField_iff. unfold validatePortsFile. split.
    + destruct (truthy ports) eqn:Hp; simpl; [| discriminate].
      destruct (truthy (member ports "configApiUrl")) eqn:Hc; simpl;
        [| discriminate].
      destruct (truthy (member ports "ntlmProxyUrl")) eqn:Hn; simpl;
        [| discriminate].
      destruct (url_parse url_parse_string (member ports "configApiUrl"))
        as [u | e1]; simpl.
      * destruct (negb (present (protocol u)) || negb (present (hostname u))
                  || negb (present (port u))) eqn:E1; [discriminate |].
        destruct (url_parse url_parse_string (member ports "ntlmProxyUrl"))
          as [u' | e2]; simpl.
        -- destruct (negb (present (protocol u')) || negb (present (hostname u'))
                     || negb (present (port u'))); discriminate.
        -- intros [= <-]. split; [reflexivity |]. split; [reflexivity |].
           right. split; [| reflexivity]. split; [reflexivity |]. eauto.
      * intros [= <-]. split; [reflexivity |]. split; [reflexivity |].
        now left.
    + intros (Hc & Hn & [Hthrow | [(_ & u & Hparse & Htests) Hthrow]]).
      * rewrite (member_truthy_object ports "configApiUrl" Hc), Hc, Hn. simpl.
        now rewrite Hthrow.
      * rewrite (member_truthy_object ports "configApiUrl" Hc), Hc, Hn. simpl.
        rewrite Hparse. simpl. rewrite Htests. now rewrite Hthrow.
  - intros v Hnot. destruct v; simpl; auto. now destruct (Hnot s).
Qed.

(** X13. Whenever [parsePortsFile] calls its callback, it passes either the
    ports and no error, or no ports and an error, never both and never
    neither; the ports passed are the value [JSON.parse] returned for the
    file, a missing file is reported as the proxy not running, and a
    [SyntaxError] of [JSON.parse] is passed on as it is. *)
Theorem parsePortsFile_callback_arguments :
  forall (fs : FileSystem),
    (forall ports err,
       parsePortsFile JSON_parse url_parse_string portsFile fs =
         Callback ports err ->
       (err = None /\
        exists v data, ports = Some v /\ fs portsFile = Some data /\
                       JSON_parse data = inl v) \/
       (ports = None /\ exists e, err = Some e)) /\
    (fs portsFile = None ->
     parsePortsFile JSON_parse url_parse_string portsFile fs =
       Callback None
         (Some (Error
            ("cypress-ntlm-auth proxy does not seem to be running. It must be started before cypress. Please see the docs." ++ portsFile)))) /\
    (forall data e,
       fs portsFile = Some data -> JSON_parse data = inr e ->
       parsePortsFile JSON_parse url_parse_string portsFile fs =
         Callback None (Some e)).
Proof.
  intros fs. unfold parsePortsFile. split; [| split].
  - intros ports err.
    destruct (fs portsFile) as [data |] eqn:Efs.
    + destruct (JSON_parse data) as [v | e] eqn:Ejson.
      * destruct (validatePortsFile url_parse_string v) as [[|] | e'].
        -- intros [= <- <-]. left. split; [reflexivity |].
           exists v, data. auto.
        -- intros [= <- <-]. right. split; [reflexivity |]. eexists. reflexivity.
        -- discriminate.
      * intros [= <- <-]. right. split; [reflexivity |]. eexists. reflexivity.
    + intros [= <- <-]. right. split; [reflexivity |]. eexists. reflexivity.
  - intros ->. reflexivity.
  - intros data e -> ->. reflexivity.
Qed.

End PortsFileMore.

Lemma parsePortsFile_callback_arguments_witness :
  Samples.emptyDisk Samples.portsFile = None /\
  PortsFile.parsePortsFile Samples.JSON_parse Samples.url_parse_string
    Samples.portsFile Samples.emptyDisk =
  PortsFile.Callback None
    (Some (PortsFile.Error
       ("cypress-ntlm-auth proxy does not seem to be running. It must be started before cypress. Please see the docs." ++ Samples.portsFile))).
Proof.
  split; [reflexivity |].
  destruct (parsePortsFile_callback_arguments Samples.JSON_parse
              Samples.url_parse_string Samples.portsFile Samples.emptyDisk)
    as (_ & Hmissing & _).
  apply Hmissing. reflexivity.
Defined.

Section PortsFileWrites.
Import PortsFile.

Variable JSON_parse : string -> JsValue + JsError.
Variable JSON_stringify : JsValue -> string.
Variable url_parse_string : string -> Completion UrlObject.
Variable portsFile : string.

(** X14. When the write succeeds and [JSON.parse] gives back what
    [JSON.stringify] was given, [savePortsFile] reports no error, replaces
    the ports file and no other file, and a [parsePortsFile] after it
    returns the saved ports exactly when both of their URL fields are
    complete: [savePortsFile] itself validates nothing. *)
Theorem savePortsFile_then_parsePortsFile :
  forall (ports : JsValue) (fs : FileSystem),
    JSON_parse (JSON_stringify ports) = inl ports ->
    let r := savePortsFile portsFile JSON_stringify ports None fs in
    fst (fst r) = None /\
    snd (fst r) portsFile = Some (JSON_stringify ports) /\
    (forall path, path <> portsFile -> snd (fst r) path = fs path) /\
    portsFileExists portsFile (snd (fst r)) = true /\
    (parsePortsFile JSON_parse url_parse_string portsFile (snd (fst r)) =
       Callback (Some ports) None <->
     completeUrlField url_parse_string (member ports "configApiUrl") /\
     completeUrlField url_parse_string (member ports "ntlmProxyUrl")).
Proof.
  intros ports fs Hround r. subst r.
  unfold savePortsFile, fs_writeFile, portsFileExists. simpl.
  rewrite String.eqb_refl.
  split; [reflexivity |]. split; [reflexivity |]. split; [| split].
  - intros path Hne. apply String.eqb_neq in Hne. now rewrite Hne.
  - reflexivity.
  - rewrite parsePortsFile_succeeds_iff. rewrite String.eqb_refl. split.
    + intros (data & [= <-] & Hparse & Hc & Hn). auto.
    + intros [Hc Hn]. exists (JSON_stringify ports). auto.
Qed.

(** X15. [deletePortsFile] succeeds exactly when the file exists and the
    removal is not refused, and reports every failure as
    [Cannot delete <file>].  After a successful delete the file is gone,
    [portsFileExists] is false, [parsePortsFile] reports that the proxy is
    not running, and a second delete fails. *)
Theorem deletePortsFile_outcome :
  forall (refusal refusal' : option JsError) (fs : FileSystem),
    let r := deletePortsFile portsFile refusal fs in
    (fst (fst r) = None <-> (fs portsFile <> None /\ refusal = None)) /\
    (fst (fst r) <> None ->
     fst (fst r) = Some (Error ("Cannot delete " ++ portsFile)) /\
     forall path, snd (fst r) path = fs path) /\
    (fst (fst r) = None ->
     snd (fst r) portsFile = None /\
     (forall path, path <> portsFile -> snd (fst r) path = fs path) /\
     portsFileExists portsFile (snd (fst r)) = false /\
     parsePortsFile JSON_parse url_parse_string portsFile (snd (fst r)) =
       Callback None
         (Some (Error
            ("cypress-ntlm-auth proxy does not seem to be running. It must be started before cypress. Please see the docs." ++ portsFile))) /\
     fst (fst (deletePortsFile portsFile refusal' (snd (fst r)))) =
       Some (Error ("Cannot delete " ++ portsFile))).
Proof.
  intros refusal refusal' fs r. subst r.
  unfold deletePortsFile, fs_unlink, portsFileExists, parsePortsFile.
  destruct (fs portsFile) as [data |] eqn:Efs; simpl.
  - destruct refusal as [e |]; simpl.
    + split; [split; [discriminate | intros [_ H]; discriminate] |].
      split; [auto | discriminate].
    + split; [split; [intros _; split; [discriminate | reflexivity] | reflexivity] |].
      split; [congruence |].
      intros _. rewrite !String.eqb_refl. simpl.
      split; [reflexivity |]. split; [| auto].
      intros path Hne. apply String.eqb_neq in Hne. now rewrite Hne.
  - split; [split; [discriminate | intros [H _]; congruence] |].
    split; [auto | discriminate].
Qed.

End PortsFileWrites.

Lemma savePortsFile_then_parsePortsFile_witness :
  Samples.JSON_parse (Samples.JSON_stringify Samples.goodPorts) =
    inl Samples.goodPorts /\
  PortsFile.parsePortsFile Samples.JSON_parse Samples.url_parse_string
    Samples.portsFile
    (snd (fst (PortsFile.savePortsFile Samples.portsFile Samples.JSON_stringify
                 Samples.goodPorts None Samples.emptyDisk))) =
  PortsFile.Callback (Some Samples.goodPorts) None.
Proof.
  split; [reflexivity |].
  destruct (savePortsFile_then_parsePortsFile Samples.JSON_parse
              Samples.JSON_stringify Samples.url_parse_string Samples.portsFile
              Samples.goodPorts Samples.emptyDisk eq_refl)
    as (_ & _ & _ & _ & Hiff).
  apply Hiff. split.
  - exists "http://127.0.0.1:50001",
      (PortsFile.mkUrlObject (Some "http:") (Some "127.0.0.1") (Some "50001")).
    repeat split; discriminate || reflexivity.
  - exists "http://127.0.0.1:50002",
      (PortsFile.mkUrlObject (Some "http:") (Some "127.0.0.1") (Some "50002")).
    repeat split; discriminate || reflexivity.
Defined.

Lemma deletePortsFile_outcome_witness :
  fst (fst (PortsFile.deletePortsFile Samples.portsFile None
              (Samples.diskWith Samples.goodPortsText))) = None /\
  PortsFile.portsFileExists Samples.portsFile
    (snd (fst (PortsFile.deletePortsFile Samples.portsFile None
                 (Samples.diskWith Samples.goodPortsText)))) = false.
Proof.
  destruct (deletePortsFile_outcome Samples.JSON_parse
              Samples.url_parse_string Samples.portsFile None None
              (Samples.diskWith Samples.goodPortsText))
    as (_ & _ & Hgone).
  split; [reflexivity |].
  destruct (Hgone eq_refl) as (_ & _ & Hexists & _). exact Hexists.
Defined.

(** A connection is opened and its socket closes: the listener goes, then
    the context. *)
Lemma destroy_follows_listener_removal_witness :
  exists earlier,
    [NewAgent (result (getAgent Samples.emptyEnv false Samples.localTarget
                         Samples.manager0));
     NewContext;
     SocketOnce Samples.browser1 "close" (RemoveAgentOnClose "127.0.0.1:50001");
     DebugLog ["Created agent for client 127.0.0.1:50001 to target http://localhost:5000/"];
     SocketRemoveListener Samples.browser1 "close"
       (Some (RemoveAgentOnClose "127.0.0.1:50001"))] =
    (earlier ++
     [SocketRemoveListener Samples.browser1 "close"
        (Some (RemoveAgentOnClose "127.0.0.1:50001"))])%list \/
    exists line,
      [NewAgent (result (getAgent Samples.emptyEnv false Samples.localTarget
                           Samples.manager0));
       NewContext;
       SocketOnce Samples.browser1 "close" (RemoveAgentOnClose "127.0.0.1:50001");
       DebugLog ["Created agent for client 127.0.0.1:50001 to target http://localhost:5000/"];
       SocketRemoveListener Samples.browser1 "close"
         (Some (RemoveAgentOnClose "127.0.0.1:50001"))] =
      (earlier ++
       [SocketRemoveListener Samples.browser1 "close"
          (Some (RemoveAgentOnClose "127.0.0.1:50001"));
        DebugLog line])%list.
Proof.
  refine (destroy_follows_listener_removal
            [CreateConnectionContext Samples.emptyEnv Samples.browser1 false
               Samples.localTarget;
             RemoveAgent "close" "127.0.0.1:50001"]
            Samples.manager0
            [NewAgent (result (getAgent Samples.emptyEnv false
                                 Samples.localTarget Samples.manager0));
             NewContext;
             SocketOnce Samples.browser1 "close"
               (RemoveAgentOnClose "127.0.0.1:50001");
             DebugLog ["Created agent for client 127.0.0.1:50001 to target http://localhost:5000/"];
             SocketRemoveListener Samples.browser1 "close"
               (Some (RemoveAgentOnClose "127.0.0.1:50001"))]
            (result Samples.firstRequest) "close"
            [DebugLog ["Removed agent for 127.0.0.1:50001 due to socket.close"]]
            _ Samples.browser1 _); reflexivity.
Defined.

Lemma reset_ends_only_filed_tunnels_witness :
  In (SocketEnd Samples.server1)
     (trace (removeAndCloseAllTunnels "reset"
               (state (addTunnel Samples.browser1 Samples.server1
                         Samples.manager0)))) /\
  socketsEnded
    (trace (removeAndCloseAllTunnels "reset"
              (state (removeTunnel Samples.browser1 Samples.manager2t)))) =
  [Samples.server2].
Proof.
  split; [| reflexivity].
  exact (proj2 (reset_ends_only_filed_tunnels Samples.manager0
                  Samples.browser1 Samples.server1 "reset")).
Defined.

Lemma validatePortsFile_throws_iff_witness :
  PortsFile.validatePortsFile Samples.url_parse_string Samples.numberPorts =
    PortsFile.Throw (PortsFile.InvalidArgType "url" (PortsFile.JNumber 1%Q)) /\
  PortsFile.validatePortsFile Samples.url_parse_string
    (PortsFile.JObject
       [("configApiUrl", PortsFile.JString "http://xn--:50001");
        ("ntlmProxyUrl", PortsFile.JString "http://127.0.0.1:50002")]) =
    PortsFile.Throw (PortsFile.TypeError "Invalid URL").
Proof.
  split.
  - apply (proj1 (validatePortsFile_throws_iff Samples.url_parse_string
                    Samples.numberPorts _)).
    split; [reflexivity |]. split; [reflexivity |]. left. reflexivity.
  - apply (proj1 (validatePortsFile_throws_iff Samples.url_parse_string _ _)).
    split; [reflexivity |]. split; [reflexivity |]. left. reflexivity.
Defined.

(** X16. In every state a new manager reaches through any sequence of calls
    (the config API marking contexts included), each tracked context is
    filed once and under its own [clientAddress], and every filed tunnel has
    its target socket. *)
Theorem reachable_tables_wellformed :
  forall (upstreamProxyManager : IUpstreamProxyManager)
         (connectionContext : ConnectionContext) (calls : list Call),
    contexts_wf
      (_connectionContexts
         (state (performAll calls
                   (newManager upstreamProxyManager connectionContext)))) = true /\
    tunnels_wf
      (_tunnels
         (state (performAll calls
                   (newManager upstreamProxyManager connectionContext)))) = true.
Proof.
  intros upstreamProxyManager connectionContext calls.
  apply performAll_wf; reflexivity.
Qed.

(** X17. [parsePortsFile] calls its callback with the parsed ports and no
    error exactly when the ports file exists, [JSON.parse] accepts its text,
    and [configApiUrl] and [ntlmProxyUrl] of the parsed value are both
    non-empty strings that [url.parse] splits into a non-empty protocol,
    host name and port. *)
Theorem parsePortsFile_success_exactly :
  forall (JSON_parse : string -> PortsFile.JsValue + PortsFile.JsError)
         (url_parse_string : string -> PortsFile.Completion PortsFile.UrlObject)
         (portsFile : string) (fs : PortsFile.FileSystem)
         (ports : PortsFile.JsValue),
    PortsFile.parsePortsFile JSON_parse url_parse_string portsFile fs =
      PortsFile.Callback (Some ports) None <->
    exists data,
      fs portsFile = Some data /\ JSON_parse data = inl ports /\
      PortsFile.completeUrlField url_parse_string
        (PortsFile.member ports "configApiUrl") /\
      PortsFile.completeUrlField url_parse_string
        (PortsFile.member ports "ntlmProxyUrl").
Proof.
  intros JSON_parse url_parse_string portsFile fs ports.
  apply parsePortsFile_succeeds_iff.
Qed.

Lemma parsePortsFile_success_exactly_witness :
  Samples.diskWith Samples.goodPortsText Samples.portsFile =
    Some Samples.goodPortsText /\
  Samples.JSON_parse Samples.goodPortsText = inl Samples.goodPorts /\
  PortsFile.parsePortsFile Samples.JSON_parse Samples.url_parse_string
    Samples.portsFile (Samples.diskWith Samples.goodPortsText) =
  PortsFile.Callback (Some Samples.goodPorts) None.
Proof.
  split; [reflexivity |]. split; [reflexivity |].
  apply (parsePortsFile_success_exactly Samples.JSON_parse
           Samples.url_parse_string Samples.portsFile
           (Samples.diskWith Samples.goodPortsText) Samples.goodPorts).
  exists Samples.goodPortsText.
  split; [reflexivity |]. split; [reflexivity |]. split.
  - exists "http://127.0.0.1:50001",
      (PortsFile.mkUrlObject (Some "http:") (Some "127.0.0.1") (Some "50001")).
    repeat split; discriminate || reflexivity.
  - exists "http://127.0.0.1:50002",
      (PortsFile.mkUrlObject (Some "http:") (Some "127.0.0.1") (Some "50002")).
    repeat split; discriminate || reflexivity.
Defined.
